(** * The text-folding engine of [frescobaldi_app/widgets/folding.py]

    A shallow embedding of the [Folder] class: fold events, fold levels,
    nesting depth, region lookup, folding, unfolding and the [mark] hook,
    together with the properties of the engine stated in the design
    document. *)

From Stdlib Require Import String Ascii ZArith List Lia Bool.
From stdpp Require Import base list gmap.

Open Scope Z_scope.

(** ** Exceptions and results

    The only exception the engine itself can raise is Python's
    [UnboundLocalError], in [Folder.region] (the loop variable [end] read
    after a loop that never ran). *)

Inductive exn := UnboundLocalError.

Inductive result (A : Type) :=
| Ok (a : A)
| Raise (e : exn).
Arguments Ok {A} a.
Arguments Raise {A} e.

#[global] Instance result_ret : MRet result := fun A a => Ok a.

#[global] Instance result_bind : MBind result := fun A B k r =>
  match r with
  | Ok a => k a
  | Raise e => Raise e
  end.

#[global] Instance result_fmap : FMap result := fun A B f r =>
  match r with
  | Ok a => Ok (f a)
  | Raise e => Raise e
  end.

(** ** The document: an ordered sequence of text blocks

    A [QTextBlock] handle is modelled by its block number; a number outside
    [0 .. blockCount - 1] is an invalid block of the document (what
    stepping past either end of the document gives). *)

Record TextBlock := mkBlock { text : string; visible : bool }.

Definition texts (doc : list TextBlock) : list string := text <$> doc.

Definition invalid : Z := -1.

Section Blocks.
(** The line contents; the engine never changes them. *)
Variable txt : list string.

Definition blockCount : Z := Z.of_nat (length txt).

Definition isValid (b : Z) : bool := (0 <=? b) && (b <? blockCount).

Definition next (b : Z) : Z := if isValid b then b + 1 else invalid.

(** [block.previous()]; Qt steps back from an invalid block of the document
    to its last block. *)
Definition previous (b : Z) : Z := if isValid b then b - 1 else blockCount - 1.

(** [block.text()]; an invalid block has the empty text. *)
Definition block_text (b : Z) : string :=
  if isValid b then default EmptyString (txt !! Z.to_nat b) else EmptyString.

(** Modelled from the spec: [cursortools.forwards], [cursortools.backwards]
    and [cursortools.all_blocks] are imported by folding.py but their module
    is not part of the excerpt.  The host offers forward iteration from an
    arbitrary line, backward iteration from an arbitrary line and all lines
    from the document start; iteration stops at the first invalid block, and
    with a valid [until] block the forward iteration runs up to and
    including it (fold and unfold walk the span [start_line .. end_line]
    with both ends, which is why [Folder.unfold] has to test
    [block not in r]). *)
Definition forwards (b until : Z) : list Z :=
  if isValid b
  then seqZ b ((if isValid until then until else blockCount - 1) - b + 1)
  else [].

Definition backwards (b : Z) : list Z :=
  if isValid b then reverse (seqZ 0 (b + 1)) else [].

Definition all_blocks : list Z := forwards 0 invalid.
End Blocks.

(** [block.isVisible()] and [block.setVisible(v)].  Qt reports an invalid
    block as visible, and [setVisible] on it does nothing. *)
Definition isVisible (doc : list TextBlock) (b : Z) : bool :=
  if isValid (texts doc) b
  then default true (visible <$> doc !! Z.to_nat b)
  else true.

Definition setVisible (b : Z) (v : bool) (doc : list TextBlock) : list TextBlock :=
  if isValid (texts doc) b
  then alter (fun tb => mkBlock (text tb) v) (Z.to_nat b) doc
  else doc.

(** ** Events, levels and regions *)

Definition START : Z := 1.
Definition STOP : Z := -1.

(** [Level = namedtuple('Level', 'stop start')] *)
Record Level := mkLevel { stop : Z; start : Z }.

(** [Region = namedtuple('Region', 'start end')] *)
Record Region := mkRegion { Region_start : Z; Region_end : Z }.

(** [sum(l)] for a Level and for a list of events. *)
Definition sum_level (l : Level) : Z := stop l + start l.

Definition sum_events (es : list Z) : Z := foldr Z.add 0 es.

(** [block in r] for a Region: equality with one of its two members. *)
Definition in_region (b : Z) (r : Region) : bool :=
  (b =? Region_start r) || (b =? Region_end r).

(** ** The overridable methods of [Folder]

    A subclass provides [fold_events] (a function of the line content) and
    may override [mark]; one Python method serves both as setter
    ([state] given) and as getter ([state] omitted), and returns a value of
    which only the truth value is used.  [M] is whatever the hook stores. *)

Class FolderClass (M : Type) := {
  fold_events : string -> list Z;
  mark : Z -> option bool -> M -> bool * M
}.

(** The default [Folder.fold_events]: ['{'] starts, ['}'] stops. *)
Fixpoint brace_events (s : string) : list Z :=
  match s with
  | EmptyString => []
  | String c s' =>
      if Ascii.eqb c "{"%char then START :: brace_events s'
      else if Ascii.eqb c "}"%char then STOP :: brace_events s'
      else brace_events s'
  end.

(** The default [Folder.mark]: does, and returns, nothing. *)
Definition mark_pass {M} (b : Z) (state : option bool) (m : M) : bool * M :=
  (false, m).

(** The base class. *)
Definition Folder : FolderClass unit :=
  {| fold_events := brace_events; mark := mark_pass |}.

(** A subclass that implements [mark] as its docstring describes: it
    remembers the folded state of a block, here in a dictionary from blocks
    to the state last given for them. *)
Definition mark_remember (b : Z) (state : option bool) (m : gmap Z bool)
    : bool * gmap Z bool :=
  match state with
  | None => (default false (m !! b), m)
  | Some s => (false, <[b := s]> m)
  end.

Definition MarkingFolder : FolderClass (gmap Z bool) :=
  {| fold_events := brace_events; mark := mark_remember |}.

(** ** The engine *)

Record State (M : Type) := mkState {
  document : list TextBlock;
  marks : M;
  (** the spans passed to [markContentsDirty], latest first *)
  dirty : list (Z * Z)
}.
Arguments mkState {M} _ _ _.
Arguments document {M} _.
Arguments marks {M} _.
Arguments dirty {M} _.

Section Engine.
Context {M : Type} {F : FolderClass M}.

(** [Folder.fold_level], on the events of one line. *)
Definition level_step (acc : Level) (e : Z) : Level :=
  if e =? START then mkLevel (stop acc) (start acc + 1)
  else if negb (start acc =? 0) then mkLevel (stop acc) (start acc - 1)
  else mkLevel (stop acc - 1) (start acc).

Definition level_of_events (es : list Z) : Level :=
  foldl level_step (mkLevel 0 0) es.

Definition fold_level (txt : list string) (b : Z) : Level :=
  level_of_events (fold_events (block_text txt b)).

(** [Folder.depth] *)
Definition depth (txt : list string) (b : Z) : Z :=
  foldl (fun count b' => count + sum_events (fold_events (block_text txt b')))
        0 (backwards txt (previous txt b)).

(** The backward loop of [Folder.region]; the result is the final
    [(start, start_depth)]. *)
Fixpoint region_backward (txt : list string) (depth_limit : Z) (bs : list Z)
    (start0 : option Z) (start_depth count : Z) : option Z * Z :=
  match bs with
  | [] => (start0, start_depth)
  | b :: bs' =>
      let l := fold_level txt b in
      if negb (start l =? 0) then
        let count := count + start l in
        if count >? start_depth then
          if (count >? depth_limit) && (depth_limit >? -1)
          then (Some b, count)
          else region_backward txt depth_limit bs' (Some b) count (count + stop l)
        else region_backward txt depth_limit bs' start0 start_depth (count + stop l)
      else region_backward txt depth_limit bs' start0 start_depth (count + stop l)
  end.

(** The forward loop of [Folder.region]; [last] is the current binding of
    the loop variable [end] ([None] while it is unbound). *)
Fixpoint region_forward (txt : list string) (bs : list Z) (count : Z)
    (last : option Z) : option Z :=
  match bs with
  | [] => last
  | e :: bs' =>
      let l := fold_level txt e in
      if count <=? - stop l then Some e
      else region_forward txt bs' (count + sum_level l) (Some e)
  end.

(** [Folder.region] *)
Definition region (txt : list string) (b : Z) (depth_limit : Z)
    : result (option Region) :=
  match region_backward txt depth_limit (backwards txt b) None 0 0 with
  | (Some s, start_depth) =>
      match region_forward txt (forwards txt (next txt b) invalid) start_depth None with
      | Some e => Ok (Some (mkRegion s e))
      | None => Raise UnboundLocalError
      end
  | (None, _) => Ok None
  end.

(** Hiding or showing a run of blocks, one [setVisible] call per block. *)
Definition setVisible_all (v : bool) (bs : list Z) (doc : list TextBlock)
    : list TextBlock :=
  foldl (fun d b => setVisible b v d) doc bs.

(** [Folder.fold] *)
Definition fold (st : State M) (b : Z) (depth_limit : Z) : result (State M) :=
  let txt := texts (document st) in
  r ← region txt b depth_limit;
  match r with
  | None => Ok st
  | Some r =>
      (* if the last block starts a new region, don't hide it *)
      let end_ := if negb (start (fold_level txt (Region_end r)) =? 0)
                  then previous txt (Region_end r) else Region_end r in
      (* don't hide the first block of the region *)
      let doc' := setVisible_all false
                    (forwards txt (next txt (Region_start r)) end_) (document st) in
      let m' := snd (mark (Region_start r) (Some true) (marks st)) in
      Ok (mkState doc' m' ((Region_start r, end_) :: dirty st))
  end.

(** The loop of [Folder.unfold] over the generator [blocks].  The inner
    [for b in blocks] draws from the same generator as the outer loop:
    [skipping = Some count] is the inner loop with its running [count],
    and the block at which it breaks is consumed too.  The inner loop has
    no effects, so showing the opening block before it instead of after it
    gives the same state. *)
Fixpoint unfold_blocks (txt : list string) (r : Region) (full : bool)
    (skipping : option Z) (bs : list Z) (doc : list TextBlock) (m : M)
    : list TextBlock * M :=
  match bs with
  | [] => (doc, m)
  | b :: bs' =>
      match skipping with
      | Some count =>
          let l := fold_level txt b in
          if count <=? - stop l
          then unfold_blocks txt r full None bs' doc m
          else unfold_blocks txt r full (Some (count + sum_level l)) bs' doc m
      | None =>
          (* is there a sub-region? then skip if marked as collapsed *)
          if negb (in_region b r) then
            let l := fold_level txt b in
            if negb (start l =? 0) then
              if full then
                let m1 := snd (mark b (Some false) m) in
                unfold_blocks txt r full None bs' (setVisible b true doc) m1
              else
                let '(collapsed, m1) := mark b None m in
                if collapsed
                then unfold_blocks txt r full (Some (start l)) bs'
                       (setVisible b true doc) m1
                else unfold_blocks txt r full None bs' (setVisible b true doc) m1
            else unfold_blocks txt r full None bs' (setVisible b true doc) m
          else unfold_blocks txt r full None bs' (setVisible b true doc) m
      end
  end.

(** [Folder.unfold] *)
Definition unfold (st : State M) (b : Z) (depth_limit : Z) (full : bool)
    : result (State M) :=
  let txt := texts (document st) in
  r ← region txt b depth_limit;
  match r with
  | None => Ok st
  | Some r =>
      let '(doc', m') :=
        unfold_blocks txt r full None
          (forwards txt (Region_start r) (Region_end r)) (document st) (marks st) in
      let m'' := snd (mark (Region_start r) (Some false) m') in
      Ok (mkState doc' m'' ((Region_start r, Region_end r) :: dirty st))
  end.

(** [Folder.fold_all]: the loop reads [isVisible] from the document as the
    folds before it left it. *)
Fixpoint fold_all_blocks (bs : list Z) (st : State M) : result (State M) :=
  match bs with
  | [] => Ok st
  | b :: bs' =>
      if negb (isVisible (document st) b) then fold_all_blocks bs' st
      else if negb (start (fold_level (texts (document st)) b) =? 0)
      then st' ← fold st b 0; fold_all_blocks bs' st'
      else fold_all_blocks bs' st
  end.

Definition fold_all (st : State M) : result (State M) :=
  fold_all_blocks (all_blocks (texts (document st))) st.

(** [Folder.unfold_all]; [span] is [(first, last)] once [first] is set. *)
Fixpoint unfold_all_blocks (txt : list string) (bs : list Z)
    (doc : list TextBlock) (m : M) (span : option (Z * Z))
    : list TextBlock * M * option (Z * Z) :=
  match bs with
  | [] => (doc, m, span)
  | b :: bs' =>
      let m1 := if negb (start (fold_level txt b) =? 0)
                then snd (mark b (Some false) m) else m in
      if negb (isVisible doc b)
      then unfold_all_blocks txt bs' (setVisible b true doc) m1
             (Some (match span with Some (first, _) => first | None => b end, b))
      else unfold_all_blocks txt bs' doc m1 span
  end.

Definition unfold_all (st : State M) : State M :=
  let txt := texts (document st) in
  let '(doc', m', span) :=
    unfold_all_blocks txt (all_blocks txt) (document st) (marks st) None in
  mkState doc' m'
    (match span with Some fl => fl :: dirty st | None => dirty st end).

(** [Folder.ensure_visible]; [ds] is [range(self.depth(block) - 1, -1, -1)]. *)
Fixpoint ensure_visible_loop (ds : list Z) (st : State M) (b : Z)
    : result (State M) :=
  match ds with
  | [] => Ok st
  | d :: ds' =>
      st' ← unfold st b d false;
      if isVisible (document st') b then Ok st'
      else ensure_visible_loop ds' st' b
  end.

Definition ensure_visible (st : State M) (b : Z) : result (State M) :=
  if isVisible (document st) b then Ok st
  else ensure_visible_loop
         (reverse (seqZ 0 (depth (texts (document st)) b))) st b.
End Engine.

Definition doc_of (lines : list string) : list TextBlock :=
  (fun s => mkBlock s true) <$> lines.

Definition example_lines : list string :=
  ["a {"; "b {"; "c }"; "d }"]%string.

(** ** What the design document says, for comparison *)

(** Number of occurrences of a character in a line. *)
Fixpoint count_char (c : ascii) (s : string) : Z :=
  match s with
  | EmptyString => 0
  | String c' s' => (if Ascii.eqb c' c then 1 else 0) + count_char c s'
  end.

(** [sumZ g l] is the sum of [g] over the blocks of [l]. *)
Definition sumZ (g : Z -> Z) (l : list Z) : Z :=
  foldr (fun b acc => g b + acc) 0 l.

(** The design document's depth: the sum of [start + stop] of
    [fold_level] over every line that precedes [b], from the document
    start. *)
Definition depth_spec {M} {F : FolderClass M} (txt : list string) (b : Z) : Z :=
  sumZ (fun i => sum_level (fold_level txt i)) (seqZ 0 b).

(** The contract of [fold_events]: it yields [START] or [STOP] events. *)
Definition is_event (e : Z) : Prop := e = START \/ e = STOP.

(** No ['}'] of the line comes before the ['{'] it would close: every
    prefix of the line has at least as many ['{'] as ['}']. *)
Definition braces_nested (s : string) : Prop :=
  forall p q, s = String.append p q -> count_char "}" p <= count_char "{" p.

(** The statement of the design document about lines with as many ['{'] as
    ['}'], as it is written. *)
Definition level_zero_on_equal_counts : Prop :=
  forall txt b,
    count_char "{" (block_text txt b) = count_char "}" (block_text txt b) ->
    fold_level (F:=Folder) txt b = mkLevel 0 0.

(** [net txt k] is the net count of regions line [k] opens. *)
Definition net {M} {F : FolderClass M} (txt : list string) (k : Z) : Z :=
  sum_level (fold_level txt k).

(** [open_count txt j b], for a line [j] at or before [b]: how many of the
    regions that open on line [j] are still open at the end of line [b]
    (all of them when [j] is [b] itself) once every line after [j] up to
    [b] has opened and closed its own. *)
Definition open_count {M} {F : FolderClass M} (txt : list string) (j b : Z) : Z :=
  start (fold_level txt j) + sumZ (net txt) (seqZ (j + 1) (b - j)).

(** Line [b] has an enclosing fold region when some line at or before it
    opens a region that is still open at the end of [b]. *)
Definition has_enclosing_region {M} {F : FolderClass M}
    (txt : list string) (b : Z) : bool :=
  existsb (fun j => 0 <? open_count txt j b) (seqZ 0 (b + 1)).

(** The visibility flags of a document, line by line. *)
Definition flags (doc : list TextBlock) : list bool := visible <$> doc.

(** What a [mark] hook reports for block [b]: should it stay collapsed? *)
Definition collapsed {M} {F : FolderClass M} (m : M) (b : Z) : bool :=
  fst (mark b None m).

(** Asking the hook changes nothing. *)
Definition mark_getter_pure {M} (F : FolderClass M) : Prop :=
  forall b m, snd (mark b None m) = m.

(** After [mark(b, False)] the hook no longer reports [b] as collapsed, and
    what it reports for the other blocks is as before. *)
Definition mark_clears {M} (F : FolderClass M) : Prop :=
  (forall b m, collapsed (snd (mark b (Some false) m)) b = false)
  /\ (forall b b' m, b <> b' ->
        collapsed (snd (mark b (Some false) m)) b' = collapsed m b').

(** The last block [fold] hides: the end of the region, or the block before
    it when the end starts a new region. *)
Definition last_hidden {M} {F : FolderClass M} (txt : list string) (r : Region) : Z :=
  if negb (start (fold_level txt (Region_end r)) =? 0)
  then Region_end r - 1 else Region_end r.

(** *** The walk of [unfold] over a span

    How the design document describes [unfold] with [full = false]: the
    lines of the span are visited in order and shown, and a sub-region whose
    opening line reports that it stays collapsed is skipped by advancing past
    its lines with the stop-count matching of [region]. *)







(** The statements of the design document that the code does not meet, as
    they are written. *)

(** Folding leaves the start line and the end line of the region visible. *)
Definition fold_leaves_ends_visible : Prop :=
  forall (st st1 : State unit) (b d : Z) (r : Region),
    region (F:=Folder) (texts (document st)) b d = Ok (Some r) ->
    fold (F:=Folder) st b d = Ok st1 ->
    isVisible (document st) (Region_start r) = true ->
    isVisible (document st) (Region_end r) = true ->
    isVisible (document st1) (Region_start r) = true
    /\ isVisible (document st1) (Region_end r) = true.

(** [fold_all] then [unfold_all] restores the visibility of every line. *)
Definition fold_all_unfold_all_restores : Prop :=
  forall (st st1 : State unit),
    fold_all (F:=Folder) st = Ok st1 ->
    flags (document (unfold_all (F:=Folder) st1)) = flags (document st).


(** ** Example documents *)

Definition fresh {M} (m : M) (lines : list string) : State M :=
  mkState (doc_of lines) m [].

(** The store of [MarkingFolder] before any block was marked. *)
Definition no_marks : gmap Z bool := ∅.

Definition one_region : list string := ["{"; "x"; "}"]%string.

Definition unclosed_region : list string := ["{"; "x"]%string.

Definition three_deep : list string :=
  ["{"; "{"; "{"; "x"; "}"; "}"; "}"]%string.

Definition with_else : list string :=
  ["{"; "{"; "x"; "} else {"; "y"; "}"; "}"]%string.

(** [one_region] after [fold] on line 0: lines 1 and 2 are hidden. *)
Definition one_region_folded : State unit :=
  mkState [mkBlock "{" true; mkBlock "x" false; mkBlock "}" false] tt [(0, 2)].

(** [one_region_folded] after a second [fold] of the same region. *)
Definition one_region_folded_twice : State unit :=
  mkState [mkBlock "{" true; mkBlock "x" false; mkBlock "}" false] tt
    [(0, 2); (0, 2)].

(** [one_region_folded] after an [unfold] of its region. *)
Definition one_region_unfolded : State unit :=
  mkState [mkBlock "{" true; mkBlock "x" true; mkBlock "}" true] tt
    [(0, 2); (0, 2)].

(** [unclosed_region] after [fold] on line 0: line 1 is hidden. *)
Definition unclosed_region_folded : State unit :=
  mkState [mkBlock "{" true; mkBlock "x" false] tt [(0, 1)].

(** [three_deep] after folding the innermost region, folding the middle
    region, and unfolding the innermost region again: the middle region,
    opened on line 1, is still marked as collapsed, and of its lines only
    line 5 is hidden. *)
Definition three_deep_reopened : State (gmap Z bool) :=
  mkState
    [mkBlock "{" true; mkBlock "{" true; mkBlock "{" true; mkBlock "x" true;
     mkBlock "}" true; mkBlock "}" false; mkBlock "}" true]
    (<[2 := false]> (<[1 := true]> (<[2 := true]> ∅)))
    [(2, 4); (1, 5); (2, 4)].

(** [with_else] after folding the region of line 4 (opened on line 3) and
    the region of line 2 (opened on line 1). *)
Definition with_else_folded : State (gmap Z bool) :=
  mkState
    [mkBlock "{" true; mkBlock "{" true; mkBlock "x" false;
     mkBlock "} else {" true; mkBlock "y" false; mkBlock "}" false;
     mkBlock "}" true]
    (<[1 := true]> (<[3 := true]> ∅))
    [(1, 2); (3, 5)].

(** Two sub-regions, one after the other, in one region. *)
Definition two_siblings : list string :=
  ["{"; "{"; "a"; "}"; "{"; "b"; "}"; "}"]%string.

(** [two_siblings] after folding the first sub-region (opened on line 1) and
    then the outer region: only line 0 is visible, and lines 1 and 0 are
    marked as collapsed. *)
Definition two_siblings_folded : State (gmap Z bool) :=
  mkState
    [mkBlock "{" true; mkBlock "{" false; mkBlock "a" false; mkBlock "}" false;
     mkBlock "{" false; mkBlock "b" false; mkBlock "}" false; mkBlock "}" false]
    (<[0 := true]> (<[1 := true]> ∅))
    [(0, 7); (1, 3)].

(** A line at the top level before a region. *)
Definition top_level_first : list string := ["x"; "{"; "y"; "}"]%string.

(** A subclass that overrides [fold_events] only. *)
Definition with_events {M} (fe : string -> list Z) : FolderClass M :=
  {| fold_events := fe; mark := mark_pass |}.

(** [no_deeper d d']: a backward scan with depth limit [d'] stops no
    earlier than one with depth limit [d]; a limit below zero never stops
    the scan. *)
Definition no_deeper (d d' : Z) : Prop := d' <= -1 \/ -1 < d <= d'.

(** [b] is the last block of the document. *)
Definition is_last_block (txt : list string) (b : Z) : bool :=
  isValid txt b && negb (isValid txt (b + 1)).

(** The methods of [Folder] that an editor binds to its commands, and a
    run of such calls, one after the other; the run stops at the first
    exception. *)
Inductive Action :=
| ActFold (b d : Z)
| ActUnfold (b d : Z) (full : bool)
| ActFoldAll
| ActUnfoldAll
| ActEnsureVisible (b : Z).

Definition perform {M} {F : FolderClass M} (st : State M) (a : Action)
    : result (State M) :=
  match a with
  | ActFold b d => fold st b d
  | ActUnfold b d full => unfold st b d full
  | ActFoldAll => fold_all st
  | ActUnfoldAll => Ok (unfold_all st)
  | ActEnsureVisible b => ensure_visible st b
  end.

Fixpoint perform_all {M} {F : FolderClass M} (st : State M) (l : list Action)
    : result (State M) :=
  match l with
  | [] => Ok st
  | a :: l' => st' ← perform st a; perform_all st' l'
  end.

(** The calls that fold, and the calls that unfold. *)
Definition folds (a : Action) : bool :=
  match a with ActFold _ _ | ActFoldAll => true | _ => false end.

(** Every hidden line comes after a line that opens a region. *)
Definition hidden_after_opener {M} {F : FolderClass M} (doc : list TextBlock) : Prop :=
  forall i, isVisible doc i = false ->
    exists j, 0 <= j < i /\ start (fold_level (texts doc) j) <> 0.

(** ** The folding area and the line painter

    [FoldingArea.paintEvent] walks the blocks from the first visible block
    of the editor and calls [Painter.draw] for the visible ones;
    [visible_blocks] yields the blocks [LinePainter.paintEvent] looks at.
    The geometry of the editor is not modelled: [below b] stands for the
    test that the top of the rectangle of block [b] is at or under the
    bottom of the exposed rectangle. *)

Definition OPEN : Z := 1.
Definition CLOSE : Z := -1.

(** One call [painter.draw(rect, indicator, depth, new_depth)], with the
    block of which [rect] is the rectangle. *)
Record Draw := mkDraw {
  draw_block : Z;
  draw_indicator : option Z;
  draw_depth : Z;
  draw_new_depth : Z
}.

Section Painting.
Context {M : Type} {F : FolderClass M}.
Variable below : Z -> bool.

(** [visible_blocks(edit, rect)], over the blocks [bs] from the first
    visible block on. *)
Fixpoint visible_blocks_from (doc : list TextBlock) (bs : list Z) : list Z :=
  match bs with
  | [] => []
  | b :: bs' =>
      if negb (isVisible doc b) then visible_blocks_from doc bs'
      else if below b then []
      else b :: visible_blocks_from doc bs'
  end.

Definition visible_blocks (doc : list TextBlock) (first : Z) : list Z :=
  visible_blocks_from doc (forwards (texts doc) first invalid).

(** [LinePainter.paintEvent]: the blocks under which a line is drawn. *)
Definition lines_drawn (doc : list TextBlock) (first : Z) : list Z :=
  filter (fun b => isValid (texts doc) (next (texts doc) b) = true
                   /\ isVisible doc (next (texts doc) b) = false)
         (visible_blocks doc first).

(** The loop of [FoldingArea.paintEvent] over the blocks [bs] that follow.
    [pending = Some (b0, count)] is the inner loop over the invisible
    blocks after the folded block [b0], with its running [count]; the call
    of [draw] for [b0] comes when that loop ends. *)
Fixpoint paint_blocks (doc : list TextBlock) (bs : list Z) (depth : Z)
    (pending : option (Z * Z)) : list Draw :=
  let txt := texts doc in
  match bs with
  | [] =>
      match pending with
      | Some (b0, count) => [mkDraw b0 (Some OPEN) depth (depth + count)]
      | None => []
      end
  | b :: bs' =>
      match pending with
      | Some (b0, count) =>
          if negb (isVisible doc b)
          then paint_blocks doc bs' depth
                 (Some (b0, count + sum_events (fold_events (block_text txt b))))
          else
            mkDraw b0 (Some OPEN) depth (depth + count) ::
            (let depth := depth + count in
             let level := fold_level txt b in
             let count := sum_level level in
             if below b then []
             else if negb (start level =? 0) then
               if isValid txt (next txt b) && negb (isVisible doc (next txt b))
               then paint_blocks doc bs' depth (Some (b, count))
               else mkDraw b (Some CLOSE) depth (depth + count)
                    :: paint_blocks doc bs' (depth + count) None
             else mkDraw b None depth (depth + count)
                  :: paint_blocks doc bs' (depth + count) None)
      | None =>
          let level := fold_level txt b in
          let count := sum_level level in
          if isVisible doc b then
            if below b then []
            else if negb (start level =? 0) then
              if isValid txt (next txt b) && negb (isVisible doc (next txt b))
              then paint_blocks doc bs' depth (Some (b, count))
              else mkDraw b (Some CLOSE) depth (depth + count)
                   :: paint_blocks doc bs' (depth + count) None
            else mkDraw b None depth (depth + count)
                 :: paint_blocks doc bs' (depth + count) None
          else paint_blocks doc bs' (depth + count) None
      end
  end.

(** [FoldingArea.paintEvent], with [first = edit.firstVisibleBlock()]: the
    calls of [Painter.draw], in order. *)
Definition paintEvent (doc : list TextBlock) (first : Z) : list Draw :=
  paint_blocks doc (forwards (texts doc) first invalid)
    (depth (texts doc) first) None.

(** The indicator of a block: none when it opens no region, [OPEN] when
    the block after it is hidden, [CLOSE] otherwise. *)
Definition indicator_of (doc : list TextBlock) (b : Z) : option Z :=
  if start (fold_level (texts doc) b) =? 0 then None
  else if isValid (texts doc) (next (texts doc) b)
          && negb (isVisible doc (next (texts doc) b))
       then Some OPEN else Some CLOSE.
End Painting.

(** What the depths of a call of [draw] for block [b] should be: [depth]
    is the depth of the design document at [b], and [new_depth] the one at
    [e], which is the block after [b] when [b] carries no indicator and
    otherwise the first visible block after [b] (or the end of the
    document). *)
Definition draw_depths_ok {M} {F : FolderClass M} (doc : list TextBlock)
    (c : Draw) : Prop :=
  isValid (texts doc) (draw_block c) = true
  /\ draw_depth c = depth_spec (texts doc) (draw_block c)
  /\ exists e,
      draw_block c < e
      /\ draw_new_depth c = depth_spec (texts doc) e
      /\ (forall k, draw_block c < k < e -> isVisible doc k = false)
      /\ (draw_indicator c <> None -> isVisible doc e = true)
      /\ (draw_indicator c = None -> e = draw_block c + 1).

(** ** The folder of a document

    [Folder.find] and [Folder.get] look among the children of the document
    for an object whose class is exactly [cls]; a child is known by its
    place in the list of children, where a new object comes last. *)

Definition find (cls : string) (children : list string) : option nat :=
  fst <$> list_find (fun c => c = cls) children.

Definition get (cls : string) (children : list string) : nat * list string :=
  match find cls children with
  | Some o => (o, children)
  | None => (length children, children ++ [cls])
  end.

(** ** Blocks and visibility flags *)

Lemma isValid_spec txt b : isValid txt b = true <-> 0 <= b < blockCount txt.
Proof. unfold isValid. rewrite andb_true_iff, Z.leb_le, Z.ltb_lt. tauto. Qed.

Lemma blockCount_texts doc : blockCount (texts doc) = Z.of_nat (length doc).
Proof. unfold blockCount, texts. by rewrite length_fmap. Qed.

Lemma texts_setVisible b v doc : texts (setVisible b v doc) = texts doc.
Proof.
  unfold setVisible. destruct (isValid (texts doc) b); [|done].
  unfold texts.
  rewrite (list_fmap_alter text _ (fun x => x)).
  - by apply list_alter_id.
  - by apply Forall_forall.
Qed.

Lemma isVisible_setVisible_eq b v doc :
  isValid (texts doc) b = true -> isVisible (setVisible b v doc) b = v.
Proof.
  intros Hb. unfold isVisible. rewrite texts_setVisible, Hb.
  unfold setVisible. rewrite Hb, list_lookup_alter_eq.
  apply isValid_spec in Hb. rewrite blockCount_texts in Hb.
  destruct (doc !! Z.to_nat b) as [tb|] eqn:E; [done|].
  apply lookup_ge_None in E. lia.
Qed.

Lemma isVisible_setVisible_ne b v doc i :
  i <> b -> isVisible (setVisible b v doc) i = isVisible doc i.
Proof.
  intros Hne. unfold isVisible. rewrite texts_setVisible.
  destruct (isValid (texts doc) i) eqn:Hi; [|done].
  unfold setVisible. destruct (isValid (texts doc) b) eqn:Hb; [|done].
  rewrite list_lookup_alter_ne; [done|].
  apply isValid_spec in Hi, Hb. lia.
Qed.

Lemma isVisible_invalid doc i : isValid (texts doc) i = false -> isVisible doc i = true.
Proof. intros Hi. unfold isVisible. by rewrite Hi. Qed.

Lemma texts_setVisible_all v bs doc : texts (setVisible_all v bs doc) = texts doc.
Proof.
  revert doc. induction bs as [|b bs IH]; intros doc; [done|].
  simpl. by rewrite IH, texts_setVisible.
Qed.

Lemma isVisible_setVisible_all_notin v bs doc i :
  i ∉ bs -> isVisible (setVisible_all v bs doc) i = isVisible doc i.
Proof.
  revert doc. induction bs as [|b bs IH]; intros doc Hin; [done|].
  apply not_elem_of_cons in Hin as [Hne Hin]. simpl.
  rewrite IH by done. by apply isVisible_setVisible_ne.
Qed.

Lemma isVisible_setVisible_all_in v bs doc i :
  i ∈ bs -> isValid (texts doc) i = true ->
  isVisible (setVisible_all v bs doc) i = v.
Proof.
  revert doc. induction bs as [|b bs IH]; intros doc Hin Hv.
  - by apply elem_of_nil in Hin.
  - simpl. destruct (decide (i ∈ bs)) as [Hi|Hi].
    + apply IH; [done|]. by rewrite texts_setVisible.
    + apply elem_of_cons in Hin as [->|?]; [|done].
      rewrite isVisible_setVisible_all_notin by done.
      by apply isVisible_setVisible_eq.
Qed.

(** ** Fold levels *)

Lemma sumZ_app g l k : sumZ g (l ++ k) = sumZ g l + sumZ g k.
Proof. induction l as [|x l IH]; simpl; [done|]. rewrite IH. lia. Qed.

Lemma sumZ_reverse g l : sumZ g (reverse l) = sumZ g l.
Proof.
  induction l as [|x l IH]; [done|].
  rewrite reverse_cons, sumZ_app, IH. simpl. lia.
Qed.

Lemma foldl_add_sumZ g l a : foldl (fun c b => c + g b) a l = a + sumZ g l.
Proof.
  revert a. induction l as [|x l IH]; intros a; simpl; [lia|].
  rewrite IH. lia.
Qed.

Section Levels.
Context {M : Type} {F : FolderClass M}.

Lemma level_step_event acc e :
  is_event e -> 0 <= start acc ->
  sum_level (level_step acc e) = sum_level acc + e
  /\ 0 <= start (level_step acc e).
Proof.
  unfold is_event, START, STOP, level_step, sum_level.
  intros [-> | ->] Hs; simpl.
  - lia.
  - destruct (start acc =? 0) eqn:E; simpl; lia.
Qed.

Lemma foldl_level_step_events es acc :
  Forall is_event es -> 0 <= start acc ->
  sum_level (foldl level_step acc es) = sum_level acc + sum_events es.
Proof.
  intros Hes. revert acc.
  induction Hes as [|e es He _ IH]; intros acc Hs; simpl; [lia|].
  destruct (level_step_event acc e He Hs) as [Hsum Hpos].
  rewrite IH by done. lia.
Qed.

(** For a rule that keeps the contract, the sum of a line's level is the
    sum of its raw events. *)
Lemma sum_level_of_events es :
  Forall is_event es -> sum_level (level_of_events es) = sum_events es.
Proof.
  intros Hes. unfold level_of_events.
  rewrite foldl_level_step_events; simpl; done || lia.
Qed.

Lemma start_nonneg_foldl es acc :
  0 <= start acc -> 0 <= start (foldl level_step acc es).
Proof.
  revert acc. induction es as [|e es IH]; intros acc Hs; [done|].
  simpl. apply IH. unfold level_step.
  destruct (e =? START); simpl; [lia|].
  destruct (start acc =? 0) eqn:E; simpl; lia.
Qed.

Lemma start_nonneg txt b : 0 <= start (fold_level txt b).
Proof. apply start_nonneg_foldl. simpl. lia. Qed.

Lemma backwards_previous txt b :
  isValid txt b = true -> backwards txt (previous txt b) = reverse (seqZ 0 b).
Proof.
  intros Hb. unfold previous, backwards. rewrite Hb.
  apply isValid_spec in Hb.
  destruct (isValid txt (b - 1)) eqn:E.
  - by replace (b - 1 + 1) with b by lia.
  - assert (b = 0) as ->; [|done].
    destruct (decide (b = 0)); [done|].
    assert (isValid txt (b - 1) = true); [|congruence].
    apply isValid_spec. lia.
Qed.

Lemma sumZ_ext f g l : (forall i, i ∈ l -> f i = g i) -> sumZ f l = sumZ g l.
Proof.
  induction l as [|x l IH]; intros H; simpl; [done|].
  rewrite H, IH; [done| |]; intros; try apply H; set_solver.
Qed.

Lemma block_text_lookup txt b :
  isValid txt b = true -> txt !! Z.to_nat b = Some (block_text txt b).
Proof.
  intros Hb. unfold block_text. rewrite Hb.
  apply isValid_spec in Hb. unfold blockCount in Hb.
  destruct (txt !! Z.to_nat b) as [s|] eqn:E; [done|].
  apply lookup_ge_None in E. lia.
Qed.

Lemma depth_refines_when_events txt b :
  Forall (fun s => Forall is_event (fold_events s)) txt ->
  isValid txt b = true ->
  depth txt b = depth_spec txt b.
Proof.
  intros Hc Hb. unfold depth, depth_spec.
  rewrite backwards_previous, foldl_add_sumZ, sumZ_reverse by done.
  simpl. apply sumZ_ext. intros i Hi.
  apply elem_of_seqZ in Hi. apply isValid_spec in Hb.
  assert (isValid txt i = true) as Hv by (apply isValid_spec; lia).
  unfold fold_level. rewrite sum_level_of_events; [done|].
  rewrite Forall_forall in Hc. apply Hc.
  apply list_elem_of_lookup. exists (Z.to_nat i). by apply block_text_lookup.
Qed.
End Levels.

(** ** The default brace rule *)

Lemma brace_events_contract s : Forall is_event (brace_events s).
Proof.
  induction s as [|c s IH]; simpl; [constructor|].
  destruct (Ascii.eqb c "{"); [constructor; [by left|done]|].
  destruct (Ascii.eqb c "}"); [constructor; [by right|done]|done].
Qed.

Lemma sum_events_brace s :
  sum_events (brace_events s) = count_char "{" s - count_char "}" s.
Proof.
  induction s as [|c s IH]; simpl; [done|].
  destruct (Ascii.eqb c "{") eqn:E1.
  - apply Ascii.eqb_eq in E1 as ->. simpl. unfold START. lia.
  - destruct (Ascii.eqb c "}") eqn:E2; simpl; unfold STOP; lia.
Qed.

(** A line whose braces are nested keeps the [stop] it started with and
    adds its net count to [start]. *)
Lemma foldl_level_step_nested s acc :
  0 <= start acc ->
  (forall p q, s = String.append p q ->
     0 <= start acc + count_char "{" p - count_char "}" p) ->
  foldl level_step acc (brace_events s)
  = mkLevel (stop acc) (start acc + count_char "{" s - count_char "}" s).
Proof.
  revert acc. induction s as [|c s IH]; intros [sp st] Hst Hpre; simpl in *.
  - f_equal. lia.
  - destruct (Ascii.eqb c "{") eqn:E1; [|destruct (Ascii.eqb c "}") eqn:E2].
    + apply Ascii.eqb_eq in E1. subst c. simpl in *.
      rewrite IH; simpl; [f_equal; lia|lia|].
      intros p q ->. specialize (Hpre (String "{" p) q eq_refl).
      simpl in Hpre. lia.
    + simpl. pose proof (Hpre (String c EmptyString) s eq_refl) as H1.
      simpl in H1. rewrite E1, E2 in H1.
      unfold level_step at 2. simpl.
      destruct (st =? 0) eqn:E; [lia|]. simpl.
      rewrite IH; simpl; [f_equal; lia|lia|].
      intros p q ->. specialize (Hpre (String c p) q eq_refl).
      simpl in Hpre. rewrite E1, E2 in Hpre. lia.
    + apply IH; [done|]. simpl.
      intros p q ->. specialize (Hpre (String c p) q eq_refl).
      simpl in Hpre. rewrite E1, E2 in Hpre. lia.
Qed.

Lemma foldl_level_step_stop_le es acc :
  stop (foldl level_step acc es) <= stop acc.
Proof.
  revert acc. induction es as [|e es IH]; intros acc; simpl; [lia|].
  etrans; [apply IH|]. unfold level_step.
  destruct (e =? START); simpl; [lia|].
  destruct (start acc =? 0); simpl; lia.
Qed.

(** A ['}'] that comes before the ['{'] it would close lowers [stop]. *)
Lemma foldl_level_step_unnested s acc :
  0 <= start acc ->
  (exists p q, s = String.append p q
     /\ start acc + count_char "{" p - count_char "}" p < 0) ->
  stop (foldl level_step acc (brace_events s)) < stop acc.
Proof.
  revert acc. induction s as [|c s IH]; intros [sp st] Hst (p & q & Hs & Hp);
    simpl in *.
  - destruct p; [simpl in Hp; lia|discriminate].
  - destruct p as [|c' p]; [simpl in Hp; lia|].
    injection Hs as <- ->. simpl in Hp.
    destruct (Ascii.eqb c "{") eqn:E1; [|destruct (Ascii.eqb c "}") eqn:E2].
    + apply Ascii.eqb_eq in E1. subst c. simpl in *.
      apply (IH (mkLevel sp (st + 1))); simpl; [lia|].
      exists p, q. split; [done|]. lia.
    + simpl. unfold level_step at 2. simpl.
      destruct (st =? 0) eqn:E; simpl.
      * pose proof (foldl_level_step_stop_le
                      (brace_events (String.append p q)) (mkLevel (sp - 1) st)).
        simpl in *. lia.
      * apply Z.eqb_neq in E. apply (IH (mkLevel sp (st - 1))); simpl; [lia|].
        exists p, q. split; [done|]. lia.
    + apply (IH (mkLevel sp st)); simpl; [lia|].
      exists p, q. split; [done|]. lia.
Qed.

(** C3, as the code has it: on a line with as many ['{'] as ['}'] the two
    components of [fold_level] cancel, [stop = - start]; the level is
    [(0, 0)] exactly when moreover no ['}'] comes before the ['{'] it would
    close.  A line such as ["} else {"] closes one region and opens
    another. *)
Theorem fold_level_equal_counts (txt : list string) (b : Z) :
  count_char "{" (block_text txt b) = count_char "}" (block_text txt b) ->
  let l := fold_level (F:=Folder) txt b in
  stop l = - start l /\ 0 <= start l /\
  (braces_nested (block_text txt b) <-> l = mkLevel 0 0).
Proof.
  intros Heq l. subst l. split; [|split; [|split]].
  - pose proof (sum_level_of_events
                  (brace_events (block_text txt b)) (brace_events_contract _)) as H.
    rewrite sum_events_brace in H. unfold sum_level in H.
    unfold fold_level. simpl. lia.
  - apply start_nonneg.
  - intros Hn. unfold fold_level, level_of_events. simpl.
    rewrite foldl_level_step_nested; simpl; [f_equal; lia|lia|].
    intros p q Hpq. specialize (Hn p q Hpq). lia.
  - intros Hl p q Hpq.
    destruct (Z_le_gt_dec (count_char "}" p) (count_char "{" p)) as [|Hgt]; [done|].
    exfalso.
    pose proof (foldl_level_step_unnested (block_text txt b) (mkLevel 0 0)) as Hu.
    simpl in Hu. unfold fold_level, level_of_events in Hl. simpl in Hl.
    rewrite Hl in Hu. simpl in Hu.
    assert (0 < 0); [|lia]. apply Hu; [lia|].
    exists p, q. split; [done|lia].
Qed.

Lemma fold_level_equal_counts_witness :
  count_char "{" (block_text ["{ a } { b }"%string] 0)
  = count_char "}" (block_text ["{ a } { b }"%string] 0)
  /\ stop (fold_level (F:=Folder) ["{ a } { b }"%string] 0)
     = - start (fold_level (F:=Folder) ["{ a } { b }"%string] 0).
Proof.
  split; [reflexivity|].
  apply (fold_level_equal_counts ["{ a } { b }"%string] 0). reflexivity.
Defined.

(** C3 as written fails: the line ["} {"] has one ['{'] and one ['}'], and
    its level is [(-1, 1)]. *)
Lemma level_zero_on_equal_counts_fails : ~ level_zero_on_equal_counts.
Proof.
  intros H. specialize (H ["} {"%string] 0 eq_refl). discriminate H.
Qed.

(** C4: [depth] as implemented, which sums the raw events of every
    preceding line, is the depth of the design document, the sum of
    [start + stop] of [fold_level] over every preceding line. *)
Theorem depth_refines_spec (txt : list string) (b : Z) :
  isValid txt b = true ->
  depth (F:=Folder) txt b = depth_spec (F:=Folder) txt b.
Proof.
  intros Hb. apply depth_refines_when_events; [|done].
  apply Forall_forall. intros s _. apply brace_events_contract.
Qed.

Lemma depth_refines_spec_witness :
  isValid example_lines 3 = true
  /\ depth (F:=Folder) example_lines 3 = depth_spec (F:=Folder) example_lines 3.
Proof.
  split; [reflexivity|]. apply (depth_refines_spec example_lines 3). reflexivity.
Defined.

(** C1: the four-line example of the design document, all lines visible:
    the depths of lines 0 to 3 are 0, 1, 2, 1; the innermost region of
    line 1 is (line 1, line 2) and its outermost region (line 0, line 3). *)
Theorem example_depths_and_regions :
  let doc := doc_of example_lines in
  Forall (fun b => isVisible doc b = true) [0; 1; 2; 3]
  /\ depth (F:=Folder) (texts doc) 0 = 0
  /\ depth (F:=Folder) (texts doc) 1 = 1
  /\ depth (F:=Folder) (texts doc) 2 = 2
  /\ depth (F:=Folder) (texts doc) 3 = 1
  /\ region (F:=Folder) (texts doc) 1 0 = Ok (Some (mkRegion 1 2))
  /\ region (F:=Folder) (texts doc) 1 (-1) = Ok (Some (mkRegion 0 3)).
Proof. repeat split; repeat constructor. Qed.

(** ** Region lookup *)

Section RegionLemmas.
Context {M : Type} {F : FolderClass M}.
Implicit Types (txt : list string) (st : State M).

Lemma reverse_seqZ_S (n : nat) :
  reverse (seqZ 0 (Z.of_nat (S n))) = Z.of_nat n :: reverse (seqZ 0 (Z.of_nat n)).
Proof. by rewrite seqZ_S, reverse_snoc. Qed.

Lemma sumZ_seqZ_snoc g m (n : Z) :
  0 <= n -> sumZ g (seqZ m (n + 1)) = sumZ g (seqZ m n) + g (m + n).
Proof.
  intros Hn. rewrite seqZ_app by lia. rewrite sumZ_app.
  rewrite (seqZ_cons (m + n) 1) by lia. simpl. lia.
Qed.

(** The backward loop finds no start when no line of the scan has a
    positive open count. *)
Lemma region_backward_None txt d (n : nat) c :
  (forall j, 0 <= j < Z.of_nat n ->
     c + start (fold_level txt j)
       + sumZ (net txt) (seqZ (j + 1) (Z.of_nat n - 1 - j)) <= 0) ->
  region_backward txt d (reverse (seqZ 0 (Z.of_nat n))) None 0 c = (None, 0).
Proof.
  revert c. induction n as [|n IH]; intros c H; [done|].
  rewrite reverse_seqZ_S. simpl.
  pose proof (H (Z.of_nat n) ltac:(lia)) as Hn.
  replace (Z.of_nat (S n) - 1 - Z.of_nat n) with 0 in Hn by lia.
  simpl in Hn.
  assert (region_backward txt d (reverse (seqZ 0 (Z.of_nat n))) None 0
            (c + net txt (Z.of_nat n)) = (None, 0)) as Hrec.
  { apply IH. intros j Hj. specialize (H j ltac:(lia)).
    replace (Z.of_nat (S n) - 1 - j) with ((Z.of_nat n - 1 - j) + 1) in H by lia.
    rewrite sumZ_seqZ_snoc in H by lia.
    replace (j + 1 + (Z.of_nat n - 1 - j)) with (Z.of_nat n) in H by lia.
    lia. }
  unfold net, sum_level in Hrec.
  destruct (start (fold_level txt (Z.of_nat n)) =? 0) eqn:E; simpl.
  - apply Z.eqb_eq in E. rewrite E in Hrec.
    by replace (c + stop (fold_level txt (Z.of_nat n)))
      with (c + (stop (fold_level txt (Z.of_nat n)) + 0)) by lia.
  - destruct (c + start (fold_level txt (Z.of_nat n)) >? 0) eqn:E2; [lia|].
    by replace (c + start (fold_level txt (Z.of_nat n))
                + stop (fold_level txt (Z.of_nat n)))
      with (c + (stop (fold_level txt (Z.of_nat n))
                 + start (fold_level txt (Z.of_nat n)))) by lia.
Qed.

Lemma has_enclosing_region_false txt b j :
  has_enclosing_region txt b = false -> 0 <= j <= b -> open_count txt j b <= 0.
Proof.
  unfold has_enclosing_region. intros H Hj.
  destruct (Z.ltb_spec 0 (open_count txt j b)) as [Hlt|]; [|done].
  assert (existsb (fun j => 0 <? open_count txt j b) (seqZ 0 (b + 1)) = true);
    [|congruence].
  apply existsb_exists. exists j. split; [|by apply Z.ltb_lt].
  apply list_elem_of_In, elem_of_seqZ. lia.
Qed.

Lemma region_None txt b d :
  isValid txt b = false \/ has_enclosing_region txt b = false ->
  region txt b d = Ok None.
Proof.
  intros H. unfold region, backwards.
  destruct (isValid txt b) eqn:Hb; [|done].
  destruct H as [?|H]; [done|]. apply isValid_spec in Hb.
  replace (b + 1) with (Z.of_nat (Z.to_nat (b + 1))) by lia.
  rewrite region_backward_None; [done|].
  intros j Hj. pose proof (has_enclosing_region_false txt b j H ltac:(lia)) as Ho.
  unfold open_count in Ho.
  replace (Z.of_nat (Z.to_nat (b + 1)) - 1 - j) with (b - j) by lia. lia.
Qed.

(** Where the two loops of [region] can leave their results. *)
Lemma region_backward_Some txt d bs s0 sd c s sd' :
  region_backward txt d bs s0 sd c = (Some s, sd') -> s ∈ bs \/ s0 = Some s.
Proof.
  revert s0 sd c. induction bs as [|b bs IH]; intros s0 sd c; simpl.
  - intros [= -> _]. by right.
  - repeat case_match; intros Hr;
      try (injection Hr as -> _; left; by left);
      apply IH in Hr as [?|Hr]; try (left; by right); try (by right);
      injection Hr as ->; left; by left.
Qed.

Lemma region_forward_Some txt bs c last e :
  region_forward txt bs c last = Some e -> e ∈ bs \/ last = Some e.
Proof.
  revert c last. induction bs as [|b bs IH]; intros c last; simpl.
  - intros ->. by right.
  - case_match; intros Hr.
    + injection Hr as ->. left. by left.
    + apply IH in Hr as [?|Hr]; [left; by right|].
      injection Hr as ->. left. by left.
Qed.

Lemma region_bounds txt b d r :
  region txt b d = Ok (Some r) ->
  0 <= Region_start r <= b /\ b < Region_end r < blockCount txt.
Proof.
  unfold region. destruct (region_backward _ _ _ _ _ _) as [[s|] sd] eqn:Eb; [|done].
  destruct (region_forward _ _ _ _) as [e|] eqn:Ef; [|done].
  intros [= <-]. simpl.
  apply region_backward_Some in Eb as [Hs|?]; [|done].
  apply region_forward_Some in Ef as [He|?]; [|done].
  unfold backwards in Hs. destruct (isValid txt b) eqn:Hb;
    [|by apply elem_of_nil in Hs].
  apply elem_of_reverse, elem_of_seqZ in Hs.
  unfold forwards, next in He. rewrite Hb in He.
  destruct (isValid txt (b + 1)) eqn:Hb1; [|by apply elem_of_nil in He].
  change (isValid txt invalid) with false in He.
  apply elem_of_seqZ in He. lia.
Qed.
Lemma stop_nonpos_foldl es acc :
  stop acc <= 0 -> stop (foldl level_step acc es) <= 0.
Proof.
  revert acc. induction es as [|e es IH]; intros acc Hs; [done|].
  simpl. apply IH. unfold level_step.
  destruct (e =? START); simpl; [lia|].
  destruct (start acc =? 0); simpl; lia.
Qed.

Lemma stop_nonpos txt b : stop (fold_level txt b) <= 0.
Proof. apply stop_nonpos_foldl. simpl. lia. Qed.

Lemma region_backward_keeps_start txt d bs s sd c :
  exists s' sd', region_backward txt d bs (Some s) sd c = (Some s', sd').
Proof.
  revert s sd c. induction bs as [|b bs IH]; intros s sd c; simpl; [eauto|].
  repeat case_match; eauto.
Qed.

(** Conversely, the backward loop finds a start as soon as one line of the
    scan has a positive open count. *)
Lemma region_backward_finds txt d (n : nat) c :
  c <= 0 ->
  (exists j, 0 <= j < Z.of_nat n /\
     0 < c + start (fold_level txt j)
           + sumZ (net txt) (seqZ (j + 1) (Z.of_nat n - 1 - j))) ->
  exists s sd,
    region_backward txt d (reverse (seqZ 0 (Z.of_nat n))) None 0 c = (Some s, sd).
Proof.
  revert c. induction n as [|n IH]; intros c Hc (j & Hj & Hpos); [lia|].
  rewrite reverse_seqZ_S. simpl.
  pose proof (start_nonneg txt (Z.of_nat n)) as Hs.
  pose proof (stop_nonpos txt (Z.of_nat n)) as Ht.
  destruct (Z.ltb_spec 0 (c + start (fold_level txt (Z.of_nat n)))) as [Hp|Hp].
  - destruct (start (fold_level txt (Z.of_nat n)) =? 0) eqn:E; simpl; [lia|].
    destruct (c + start (fold_level txt (Z.of_nat n)) >? 0) eqn:E2; [|lia].
    case_match; [eauto|]. apply region_backward_keeps_start.
  - assert (j < Z.of_nat n) as Hlt.
    { destruct (decide (j = Z.of_nat n)) as [->|]; [|lia].
      replace (Z.of_nat (S n) - 1 - Z.of_nat n) with 0 in Hpos by lia.
      simpl in Hpos. lia. }
    assert (exists s sd,
              region_backward txt d (reverse (seqZ 0 (Z.of_nat n))) None 0
                (c + net txt (Z.of_nat n)) = (Some s, sd)) as Hrec.
    { apply IH; [unfold net, sum_level; lia|].
      exists j. split; [lia|].
      replace (Z.of_nat (S n) - 1 - j) with ((Z.of_nat n - 1 - j) + 1) in Hpos by lia.
      rewrite sumZ_seqZ_snoc in Hpos by lia.
      replace (j + 1 + (Z.of_nat n - 1 - j)) with (Z.of_nat n) in Hpos by lia.
      lia. }
    unfold net, sum_level in Hrec.
    destruct (start (fold_level txt (Z.of_nat n)) =? 0) eqn:E; simpl.
    + apply Z.eqb_eq in E. rewrite E in Hrec.
      by replace (c + stop (fold_level txt (Z.of_nat n)))
        with (c + (stop (fold_level txt (Z.of_nat n)) + 0)) by lia.
    + destruct (c + start (fold_level txt (Z.of_nat n)) >? 0) eqn:E2; [lia|].
      by replace (c + start (fold_level txt (Z.of_nat n))
                  + stop (fold_level txt (Z.of_nat n)))
        with (c + (stop (fold_level txt (Z.of_nat n))
                   + start (fold_level txt (Z.of_nat n)))) by lia.
Qed.

(** [has_enclosing_region] is exactly the lines for which [region] looks
    for an end: on every other line it returns none. *)
Lemma region_None_iff txt b d :
  isValid txt b = true ->
  (has_enclosing_region txt b = false <-> region txt b d = Ok None).
Proof.
  intros Hb. split; [intros H; apply region_None; by right|].
  intros Hr. destruct (has_enclosing_region txt b) eqn:He; [|done].
  exfalso. unfold has_enclosing_region in He.
  apply existsb_exists in He as (j & Hj & Hpos).
  apply list_elem_of_In, elem_of_seqZ in Hj. apply Z.ltb_lt in Hpos.
  unfold region, backwards in Hr. rewrite Hb in Hr.
  apply isValid_spec in Hb.
  destruct (region_backward_finds txt d (Z.to_nat (b + 1)) 0 ltac:(lia))
    as (s & sd & Hs).
  { exists j. split; [lia|]. unfold open_count in Hpos.
    replace (Z.of_nat (Z.to_nat (b + 1)) - 1 - j) with (b - j) by lia. lia. }
  replace (Z.of_nat (Z.to_nat (b + 1))) with (b + 1) in Hs by lia.
  rewrite Hs in Hr. by case_match.
Qed.
End RegionLemmas.

(** ** Folding and unfolding *)

Section FoldLemmas.
Context {M : Type} {F : FolderClass M}.
Implicit Types (txt : list string) (st : State M) (doc : list TextBlock).

(** C7: for a line reference past either end of the document, and for a
    line that has no enclosing fold region, [region] returns none, and
    [fold] and [unfold] return without an error and leave the whole state
    (visibility flags, marks, repaint signals) as it was. *)
Theorem no_region_silent_noop st (b d : Z) (full : bool) :
  isValid (texts (document st)) b = false
  \/ has_enclosing_region (texts (document st)) b = false ->
  region (texts (document st)) b d = Ok None
  /\ fold st b d = Ok st
  /\ unfold st b d full = Ok st.
Proof.
  intros H. pose proof (region_None _ b d H) as Hr.
  unfold fold, unfold. rewrite Hr. done.
Qed.

Lemma isVisible_setVisible_true b doc i :
  isVisible doc i = true -> isVisible (setVisible b true doc) i = true.
Proof.
  intros Hi. destruct (decide (i = b)) as [->|Hne].
  - destruct (isValid (texts doc) b) eqn:Hb.
    + by apply isVisible_setVisible_eq.
    + apply isVisible_invalid. by rewrite texts_setVisible.
  - by rewrite isVisible_setVisible_ne.
Qed.

(** The loop of [unfold] only ever shows blocks. *)
Lemma unfold_blocks_mono txt r full bs sk doc m :
  texts (unfold_blocks txt r full sk bs doc m).1 = texts doc
  /\ forall i, isVisible doc i = true ->
         isVisible (unfold_blocks txt r full sk bs doc m).1 i = true.
Proof.
  revert sk doc m. induction bs as [|b bs IH]; intros sk doc m; [done|].
  assert (forall sk' m', let d' := (unfold_blocks txt r full sk' bs
                                       (setVisible b true doc) m').1 in
            texts d' = texts doc
            /\ forall i, isVisible doc i = true -> isVisible d' i = true) as Hshow.
  { intros sk' m'. destruct (IH sk' (setVisible b true doc) m') as [Ht Hv].
    split; [by rewrite Ht, texts_setVisible|].
    intros i Hi. by apply Hv, isVisible_setVisible_true. }
  simpl. repeat case_match; first [apply IH | apply Hshow].
Qed.

(** C9: [unfold] never hides a line: whatever the state, the line, the
    depth limit and [full], every line that was visible before the call is
    visible after it. *)
Theorem unfold_never_hides st st' (b d : Z) (full : bool) :
  unfold st b d full = Ok st' ->
  forall i, isVisible (document st) i = true -> isVisible (document st') i = true.
Proof.
  unfold unfold. destruct (region _ b d) as [[r|]|] eqn:Hr; simpl; [| |done].
  - destruct (unfold_blocks _ _ _ _ _ _ _) as [doc' m'] eqn:Hu.
    intros [= <-] i Hi. simpl.
    pose proof (unfold_blocks_mono (texts (document st)) r full
                  (forwards (texts (document st)) (Region_start r) (Region_end r))
                  None (document st) (marks st)) as [_ Hv].
    rewrite Hu in Hv. by apply Hv.
  - by intros [= <-].
Qed.
Lemma forwards_until txt a u :
  isValid txt a = true -> isValid txt u = true ->
  forwards txt a u = seqZ a (u - a + 1).
Proof. intros Ha Hu. unfold forwards. by rewrite Ha, Hu. Qed.

Lemma region_valid txt b d r :
  region txt b d = Ok (Some r) ->
  isValid txt (Region_start r) = true /\ isValid txt (Region_end r) = true
  /\ isValid txt (Region_start r + 1) = true
  /\ isValid txt (last_hidden txt r) = true
  /\ Region_start r <= last_hidden txt r <= Region_end r.
Proof.
  intros Hr. apply region_bounds in Hr. unfold last_hidden.
  repeat split; try apply isValid_spec; try case_match; lia.
Qed.

(** What [fold] does once [region] has found a region. *)
Lemma fold_region st b d r :
  region (texts (document st)) b d = Ok (Some r) ->
  fold st b d =
  Ok (mkState
        (setVisible_all false
           (seqZ (Region_start r + 1)
                 (last_hidden (texts (document st)) r - Region_start r))
           (document st))
        (mark (Region_start r) (Some true) (marks st)).2
        ((Region_start r, last_hidden (texts (document st)) r) :: dirty st)).
Proof.
  intros Hr. destruct (region_valid _ _ _ _ Hr) as (Hs & He & Hs1 & Hl & Hle).
  unfold fold. rewrite Hr. simpl.
  assert ((if negb (start (fold_level (texts (document st)) (Region_end r)) =? 0)
           then previous (texts (document st)) (Region_end r) else Region_end r)
          = last_hidden (texts (document st)) r) as ->.
  { unfold last_hidden, previous. by rewrite He. }
  unfold next. rewrite Hs, forwards_until by done.
  by replace (last_hidden (texts (document st)) r - (Region_start r + 1) + 1)
    with (last_hidden (texts (document st)) r - Region_start r) by lia.
Qed.

(** With [full] every block of the span is shown. *)
Lemma unfold_blocks_full txt r bs doc m :
  (unfold_blocks txt r true None bs doc m).1 = setVisible_all true bs doc.
Proof.
  revert doc m. induction bs as [|b bs IH]; intros doc m; [done|].
  simpl. repeat case_match; apply IH.
Qed.

Lemma unfold_blocks_full_marks txt r bs doc m j :
  mark_clears F ->
  collapsed m j = false
  \/ (j ∈ bs /\ in_region j r = false /\ start (fold_level txt j) <> 0) ->
  collapsed (unfold_blocks txt r true None bs doc m).2 j = false.
Proof.
  intros [Hclr Hoth]. revert doc m.
  induction bs as [|b bs IH]; intros doc m H.
  - destruct H as [?|[[]%elem_of_nil _]]. done.
  - simpl.
    destruct (negb (in_region b r)) eqn:Er;
      [destruct (negb (start (fold_level txt b) =? 0)) eqn:Es|].
    + apply IH. destruct (decide (j = b)) as [->|Hne]; [left; apply Hclr|].
      destruct H as [H|(Hin & ? & ?)].
      * left. by rewrite Hoth.
      * right. apply elem_of_cons in Hin as [?|?]; done.
    + apply IH. destruct H as [H|(Hin & Hj & Hsj)]; [by left|].
      apply elem_of_cons in Hin as [->|?]; [|by right].
      apply negb_false_iff, Z.eqb_eq in Es. done.
    + apply IH. destruct H as [H|(Hin & Hj & Hsj)]; [by left|].
      apply elem_of_cons in Hin as [->|?]; [|by right].
      rewrite Hj in Er. done.
Qed.

(** What [unfold] with [full] does once [region] has found a region. *)
Lemma unfold_full_region st b d r :
  region (texts (document st)) b d = Ok (Some r) ->
  exists m',
    unfold st b d true =
    Ok (mkState
          (setVisible_all true
             (seqZ (Region_start r) (Region_end r - Region_start r + 1))
             (document st))
          (mark (Region_start r) (Some false) m').2
          ((Region_start r, Region_end r) :: dirty st))
    /\ m' = (unfold_blocks (texts (document st)) r true None
               (seqZ (Region_start r) (Region_end r - Region_start r + 1))
               (document st) (marks st)).2.
Proof.
  intros Hr. destruct (region_valid _ _ _ _ Hr) as (Hs & He & _).
  unfold unfold. rewrite Hr. simpl. rewrite forwards_until by done.
  destruct (unfold_blocks _ _ _ _ _ _ _) as [doc' m'] eqn:Hu.
  exists m'. split; [|done].
  pose proof (unfold_blocks_full (texts (document st)) r
    (seqZ (Region_start r) (Region_end r - Region_start r + 1))
    (document st) (marks st)) as Hf.
  rewrite Hu in Hf. simpl in Hf. by rewrite Hf.
Qed.

Lemma isVisible_setVisible_all_seqZ v a n doc i :
  (forall k, a <= k < a + n -> isValid (texts doc) k = true) ->
  isVisible (setVisible_all v (seqZ a n) doc) i
  = if (a <=? i) && (i <? a + n) then v else isVisible doc i.
Proof.
  intros Hval.
  destruct ((a <=? i) && (i <? a + n)) eqn:E.
  - apply andb_true_iff in E as [?%Z.leb_le ?%Z.ltb_lt].
    apply isVisible_setVisible_all_in; [apply elem_of_seqZ; lia|].
    apply Hval. lia.
  - apply isVisible_setVisible_all_notin. intros Hin%elem_of_seqZ.
    apply andb_false_iff in E as [?%Z.leb_gt|?%Z.ltb_ge]; lia.
Qed.

(** C2, as the code has it: [fold] hides exactly the lines after the start
    line up to and including the last hidden line, which is the end line of
    the region unless that line opens a new region (then it is the line
    before), and leaves every other flag, the start line's too, as it was; a
    following [unfold] of the same region with [full] shows every line from
    the start line to the end line and leaves the other flags alone,
    whatever the [mark] hook does; and when [mark(b, False)] of the hook
    clears [b] and no other block, the start line and every line inside the
    span that opens a sub-region end reported as not collapsed. *)
Theorem fold_hides_and_unfold_full_shows st (b d : Z) (r : Region) :
  region (texts (document st)) b d = Ok (Some r) ->
  exists st1 st2,
    fold st b d = Ok st1 /\ unfold st1 b d true = Ok st2
    /\ (forall i, isVisible (document st1) i
                  = if (Region_start r <? i)
                       && (i <=? last_hidden (texts (document st)) r)
                    then false else isVisible (document st) i)
    /\ (forall i, isVisible (document st2) i
                  = if (Region_start r <=? i) && (i <=? Region_end r)
                    then true else isVisible (document st1) i)
    /\ (mark_clears F ->
        forall j, Region_start r <= j < Region_end r ->
          j = Region_start r \/ start (fold_level (texts (document st)) j) <> 0 ->
          collapsed (marks st2) j = false).
Proof.
  intros Hr.
  pose proof (region_bounds _ _ _ _ Hr) as Hb.
  destruct (region_valid _ _ _ _ Hr) as (Hs & He & Hs1 & Hl & Hle).
  rewrite (fold_region st b d r Hr).
  eexists. 
  match goal with |- exists st2, Ok ?s = Ok _ /\ _ => set (st1 := s) end.
  assert (texts (document st1) = texts (document st)) as Ht
    by apply texts_setVisible_all.
  assert (region (texts (document st1)) b d = Ok (Some r)) as Hr1
    by (by rewrite Ht).
  destruct (unfold_full_region st1 b d r Hr1) as (m' & Hu & Hm').
  eexists. split; [done|]. split; [exact Hu|]. simpl.
  split; [|split].
  - intros i. rewrite isVisible_setVisible_all_seqZ.
    + replace (Region_start r + 1 <=? i) with (Region_start r <? i)
        by (destruct (Z.ltb_spec (Region_start r) i), (Z.leb_spec (Region_start r + 1) i); lia).
      replace (i <? Region_start r + 1
                    + (last_hidden (texts (document st)) r - Region_start r))
        with (i <=? last_hidden (texts (document st)) r); [done|].
      destruct (Z.leb_spec i (last_hidden (texts (document st)) r)),
        (Z.ltb_spec i (Region_start r + 1
                       + (last_hidden (texts (document st)) r - Region_start r))); lia.
    + intros k Hk. apply isValid_spec. lia.
  - intros i. rewrite isVisible_setVisible_all_seqZ.
    + replace (i <? Region_start r + (Region_end r - Region_start r + 1))
        with (i <=? Region_end r); [done|].
      destruct (Z.leb_spec i (Region_end r)),
        (Z.ltb_spec i (Region_start r + (Region_end r - Region_start r + 1))); lia.
    + intros k Hk. rewrite texts_setVisible_all. apply isValid_spec. lia.
  - intros Hlaws j Hj Hopen. pose proof Hlaws as [Hclr Hoth].
    destruct (decide (j = Region_start r)) as [->|Hne]; [apply Hclr|].
    rewrite Hoth by done. rewrite Hm'. unfold st1. simpl.
    rewrite texts_setVisible_all.
    apply unfold_blocks_full_marks; [done|]. right.
    split; [apply elem_of_seqZ; lia|]. split.
    + unfold in_region. apply orb_false_iff.
      split; apply Z.eqb_neq; lia.
    + by destruct Hopen.
Qed.
(** *** Folding and unfolding everything *)

Lemma texts_fold st st1 b d :
  fold st b d = Ok st1 -> texts (document st1) = texts (document st).
Proof.
  unfold fold. destruct (region _ b d) as [[r|]|]; simpl; [| |done].
  - intros [= <-]. simpl. apply texts_setVisible_all.
  - by intros [= <-].
Qed.

Lemma texts_fold_all_blocks bs st st1 :
  fold_all_blocks bs st = Ok st1 -> texts (document st1) = texts (document st).
Proof.
  revert st. induction bs as [|b bs IH]; intros st; simpl.
  - by intros [= <-].
  - repeat case_match; try apply IH.
    destruct (fold st b 0) as [st'|] eqn:Hf; simpl; [|done].
    intros Hr. rewrite (IH _ Hr). by apply texts_fold in Hf.
Qed.

Lemma unfold_all_blocks_shows txt bs doc m span :
  let doc' := (unfold_all_blocks txt bs doc m span).1.1 in
  texts doc' = texts doc
  /\ (forall i, isVisible doc i = true -> isVisible doc' i = true)
  /\ (forall i, i ∈ bs -> isValid (texts doc) i = true -> isVisible doc' i = true).
Proof.
  revert doc m span. induction bs as [|b bs IH]; intros doc m span; simpl.
  - split; [done|]. split; [done|]. by intros i []%elem_of_nil.
  - destruct (negb (isVisible doc b)) eqn:Eb.
    + match goal with |- context [unfold_all_blocks txt bs ?d ?m1 ?sp] =>
        destruct (IH d m1 sp) as (Ht & Hv & Hin) end.
      rewrite texts_setVisible in Ht, Hin.
      split; [done|]. split.
      * intros i Hi. by apply Hv, isVisible_setVisible_true.
      * intros i [->|Hi]%elem_of_cons Hval; [|by apply Hin].
        by apply Hv, isVisible_setVisible_eq.
    + match goal with |- context [unfold_all_blocks txt bs ?d ?m1 ?sp] =>
        destruct (IH d m1 sp) as (Ht & Hv & Hin) end.
      split; [done|]. split; [done|].
      intros i [->|Hi]%elem_of_cons Hval; [|by apply Hin].
      apply Hv. by apply negb_false_iff in Eb.
Qed.

Lemma elem_of_all_blocks txt i : isValid txt i = true -> i ∈ all_blocks txt.
Proof.
  intros Hi. apply isValid_spec in Hi. unfold all_blocks, forwards.
  assert (isValid txt 0 = true) as -> by (apply isValid_spec; lia).
  change (isValid txt invalid) with false. simpl.
  apply elem_of_seqZ. lia.
Qed.

Lemma unfold_all_shows st :
  texts (document (unfold_all st)) = texts (document st)
  /\ forall i, isValid (texts (document st)) i = true ->
         isVisible (document (unfold_all st)) i = true.
Proof.
  unfold unfold_all.
  pose proof (unfold_all_blocks_shows (texts (document st))
                (all_blocks (texts (document st))) (document st) (marks st) None)
    as (Ht & _ & Hin).
  destruct (unfold_all_blocks _ _ _ _ _) as [[doc' m'] span]. simpl in *.
  split; [done|]. intros i Hi. apply Hin; [|done]. by apply elem_of_all_blocks.
Qed.

Lemma isVisible_lookup doc (k : nat) tb :
  doc !! k = Some tb -> isVisible doc (Z.of_nat k) = visible tb.
Proof.
  intros Hk. unfold isVisible. rewrite Nat2Z.id, Hk. simpl.
  apply lookup_lt_Some in Hk.
  assert (isValid (texts doc) (Z.of_nat k) = true) as ->; [|done].
  apply isValid_spec. rewrite blockCount_texts. lia.
Qed.

Lemma flags_ext doc doc' :
  texts doc' = texts doc ->
  (forall i, isVisible doc' i = isVisible doc i) ->
  flags doc' = flags doc.
Proof.
  intros Ht Hv. apply list_eq. intros k. unfold flags.
  rewrite !list_lookup_fmap.
  assert (length doc' = length doc) as Hlen.
  { apply (f_equal length) in Ht. unfold texts in Ht.
    by rewrite !length_fmap in Ht. }
  destruct (doc !! k) as [tb|] eqn:E, (doc' !! k) as [tb'|] eqn:E'; simpl.
  - f_equal. rewrite <- (isVisible_lookup _ _ _ E), <- (isVisible_lookup _ _ _ E').
    apply Hv.
  - apply lookup_lt_Some in E. apply lookup_ge_None in E'. lia.
  - apply lookup_lt_Some in E'. apply lookup_ge_None in E. lia.
  - done.
Qed.

(** C5, as the code has it: when [fold_all] completes, [unfold_all] after
    it leaves every line of the document visible; so the round trip
    restores the visibility flags of a document whose lines were all
    visible. *)
Theorem fold_all_unfold_all_shows_all st st1 :
  fold_all st = Ok st1 ->
  (forall i, isValid (texts (document st)) i = true ->
     isVisible (document (unfold_all st1)) i = true)
  /\ ((forall i, isValid (texts (document st)) i = true ->
         isVisible (document st) i = true) ->
      flags (document (unfold_all st1)) = flags (document st)).
Proof.
  intros Hf. apply texts_fold_all_blocks in Hf.
  destruct (unfold_all_shows st1) as [Ht Hall]. rewrite Hf in Hall.
  split; [done|]. intros Hvis.
  apply flags_ext; [by rewrite Ht|]. intros i.
  destruct (isValid (texts (document st)) i) eqn:Hi.
  - by rewrite Hall, Hvis.
  - rewrite !isVisible_invalid; [done|done|by rewrite Ht, Hf].
Qed.
(** *** Unfolding with collapsed sub-regions *)


Lemma mark_get_pair b m :
  mark_getter_pure F -> mark b None m = (collapsed m b, m).
Proof.
  intros Hp. specialize (Hp b m). unfold collapsed.
  destruct (mark b None m) as [c m1]. simpl in *. by subst.
Qed.

(** Blocks that open no sub-region marked as collapsed are shown one by
    one. *)
Lemma unfold_blocks_unmarked txt r pre rest doc m :
  mark_getter_pure F ->
  (forall j, j ∈ pre -> in_region j r = false ->
     start (fold_level txt j) <> 0 -> collapsed m j = false) ->
  unfold_blocks txt r false None (pre ++ rest) doc m
  = unfold_blocks txt r false None rest (setVisible_all true pre doc) m.
Proof.
  intros Hp. revert doc. induction pre as [|b pre IH]; intros doc H; [done|].
  simpl. 
  assert (forall j, j ∈ pre -> in_region j r = false ->
            start (fold_level txt j) <> 0 -> collapsed m j = false) as H'
    by (intros k Hk; apply H; by right).
  destruct (negb (in_region b r)) eqn:Er; [|by apply IH].
  destruct (negb (start (fold_level txt b) =? 0)) eqn:Es; [|by apply IH].
  rewrite (mark_get_pair b m Hp).
  rewrite (H b); [by apply IH|by left| |].
  - by apply negb_true_iff in Er.
  - by apply negb_true_iff, Z.eqb_neq in Es.
Qed.




(** What [unfold] does once [region] has found a region. *)
Lemma unfold_region st b d full r :
  region (texts (document st)) b d = Ok (Some r) ->
  let ub := unfold_blocks (texts (document st)) r full None
              (seqZ (Region_start r) (Region_end r - Region_start r + 1))
              (document st) (marks st) in
  unfold st b d full =
  Ok (mkState ub.1 (mark (Region_start r) (Some false) ub.2).2
        ((Region_start r, Region_end r) :: dirty st)).
Proof.
  intros Hr. destruct (region_valid _ _ _ _ Hr) as (Hs & He & _).
  unfold unfold. rewrite Hr. simpl. rewrite forwards_until by done.
  by destruct (unfold_blocks _ _ _ _ _ _ _).
Qed.






End FoldLemmas.

(** ** The default [mark] *)

Lemma unfold_blocks_default_mark {M} (fe : string -> list Z) txt r bs
    (doc : list TextBlock) (m : M) :
  unfold_blocks (F:=with_events fe) txt r false None bs doc m
  = unfold_blocks (F:=with_events fe) txt r true None bs doc m.
Proof.
  revert doc. induction bs as [|b bs IH]; intros doc; [done|].
  simpl. repeat case_match; apply IH.
Qed.

(** C10: with the default [mark], which stores nothing and reports no
    block as collapsed, [unfold] gives the same final visibility flags with
    [full = false] as with [full = true], whatever rule provides the
    events. *)
Theorem unfold_full_irrelevant_default_mark {M} (fe : string -> list Z)
    (st : State M) (b d : Z) :
  (fun st' => flags (document st')) <$> unfold (F:=with_events fe) st b d false
  = (fun st' => flags (document st')) <$> unfold (F:=with_events fe) st b d true.
Proof.
  unfold unfold. destruct (region _ b d) as [[r|]|]; simpl; [|done|done].
  by rewrite unfold_blocks_default_mark.
Qed.

(** ** The hooks meet the laws *)


Lemma marking_folder_clears : mark_clears MarkingFolder.
Proof.
  split.
  - intros b m. unfold collapsed. simpl. by rewrite lookup_insert_eq.
  - intros b b' m Hne. unfold collapsed. simpl. by rewrite lookup_insert_ne.
Qed.

Lemma folder_getter_pure : mark_getter_pure Folder.
Proof. by intros b m. Qed.

Lemma folder_clears : mark_clears Folder.
Proof. by split. Qed.

(** ** The examples *)

Lemma three_deep_reopened_reachable :
  (st1 ← fold (F:=MarkingFolder) (fresh no_marks three_deep) 3 0;
   st2 ← fold (F:=MarkingFolder) st1 1 0;
   unfold (F:=MarkingFolder) st2 3 0 false) = Ok three_deep_reopened.
Proof. vm_compute. reflexivity. Qed.

Lemma two_siblings_folded_reachable :
  (st1 ← fold (F:=MarkingFolder) (fresh no_marks two_siblings) 2 0;
   fold (F:=MarkingFolder) st1 0 0) = Ok two_siblings_folded.
Proof. vm_compute. reflexivity. Qed.

Lemma with_else_folded_reachable :
  (st1 ← fold (F:=MarkingFolder) (fresh no_marks with_else) 4 0;
   fold (F:=MarkingFolder) st1 2 0) = Ok with_else_folded.
Proof. vm_compute. reflexivity. Qed.

(** The line that closes a skipped sub-region is consumed by the skipping
    loop even when it opens the next region: after unfolding the outer
    region of [with_else_folded], the region opened on line 3 is still
    marked as collapsed and its lines 4 and 5 are visible. *)
Lemma unfold_skips_else_line :
  exists st', unfold (F:=MarkingFolder) with_else_folded 0 0 false = Ok st'
    /\ collapsed (F:=MarkingFolder) (marks st') 3 = true
    /\ flags (document st') = [true; true; false; true; true; true; true].
Proof. eexists. split; [vm_compute; reflexivity|]. split; reflexivity. Qed.

(** [region] raises on the last line of a document that leaves a region
    open: the forward loop has no block to bind [end] to. *)
Lemma region_raises_on_last_line :
  region (F:=Folder) unclosed_region 1 0 = Raise UnboundLocalError
  /\ fold_all (F:=Folder) (fresh tt ["{"%string]) = Raise UnboundLocalError.
Proof. split; reflexivity. Qed.

(** ** [ensure_visible] *)

Lemma ensure_visible_noop_when_visible {M} {F : FolderClass M} (st : State M) b :
  isVisible (document st) b = true -> ensure_visible st b = Ok st.
Proof. intros H. unfold ensure_visible. by rewrite H. Qed.

(** C8 fails on the code: after folding the region of [one_region], its
    closing line 2 is hidden and lies at depth 1, so [ensure_visible] calls
    [unfold] with depth limit 0 only; [region] finds no region for line 2,
    the call changes nothing, and line 2 stays hidden. *)
Theorem ensure_visible_leaves_closing_line_hidden :
  fold (F:=Folder) (fresh tt one_region) 0 0 = Ok one_region_folded
  /\ isVisible (document one_region_folded) 2 = false
  /\ depth (F:=Folder) one_region 2 = 1
  /\ region (F:=Folder) one_region 2 0 = Ok None
  /\ ensure_visible (F:=Folder) one_region_folded 2 = Ok one_region_folded.
Proof. repeat split. Qed.

(** On the hidden last line of a document that leaves its region open,
    [ensure_visible] raises. *)
Lemma ensure_visible_raises_on_last_line :
  fold (F:=Folder) (fresh tt unclosed_region) 0 0 = Ok unclosed_region_folded
  /\ ensure_visible (F:=Folder) unclosed_region_folded 1 = Raise UnboundLocalError.
Proof. split; reflexivity. Qed.

(** ** The statements at concrete documents *)

Lemma no_region_silent_noop_witness :
  (isValid (texts (document (fresh tt top_level_first))) 0 = false
   \/ has_enclosing_region (F:=Folder)
        (texts (document (fresh tt top_level_first))) 0 = false)
  /\ region (F:=Folder) (texts (document (fresh tt top_level_first))) 0 0 = Ok None
  /\ fold (F:=Folder) (fresh tt top_level_first) 0 0 = Ok (fresh tt top_level_first)
  /\ unfold (F:=Folder) (fresh tt top_level_first) 0 0 false
     = Ok (fresh tt top_level_first).
Proof.
  split; [right; reflexivity|].
  apply (no_region_silent_noop (F:=Folder) (fresh tt top_level_first) 0 0 false).
  right. reflexivity.
Defined.

Lemma unfold_never_hides_witness :
  unfold (F:=Folder) one_region_folded 1 0 false = Ok one_region_unfolded
  /\ (forall i, isVisible (document one_region_folded) i = true ->
                isVisible (document one_region_unfolded) i = true).
Proof.
  split; [reflexivity|].
  apply (unfold_never_hides (F:=Folder) one_region_folded
           one_region_unfolded 1 0 false).
  reflexivity.
Defined.

Lemma fold_hides_and_unfold_full_shows_witness :
  region (F:=MarkingFolder) (texts (document (fresh no_marks three_deep))) 3 1
  = Ok (Some (mkRegion 1 5))
  /\ exists st1 st2,
       fold (F:=MarkingFolder) (fresh no_marks three_deep) 3 1 = Ok st1
       /\ unfold (F:=MarkingFolder) st1 3 1 true = Ok st2
       /\ isVisible (document st1) 5 = false
       /\ isVisible (document st2) 5 = true
       /\ collapsed (F:=MarkingFolder) (marks st2) 1 = false.
Proof.
  split; [reflexivity|].
  destruct (fold_hides_and_unfold_full_shows (F:=MarkingFolder)
              (fresh no_marks three_deep) 3 1 (mkRegion 1 5) eq_refl)
    as (st1 & st2 & Hf & Hu & Hh & Hs & Hm).
  exists st1, st2. split; [exact Hf|]. split; [exact Hu|].
  split; [exact (Hh 5)|]. split; [exact (Hs 5)|].
  apply (Hm marking_folder_clears 1); [simpl; lia|by left].
Defined.

Lemma fold_all_unfold_all_shows_all_witness :
  fold_all (F:=Folder) (fresh tt one_region) = Ok one_region_folded
  /\ flags (document (unfold_all (F:=Folder) one_region_folded))
     = flags (document (fresh tt one_region)).
Proof.
  split; [reflexivity|].
  apply (fold_all_unfold_all_shows_all (F:=Folder)
           (fresh tt one_region) one_region_folded eq_refl).
  intros i Hi. apply isValid_spec in Hi. simpl in Hi.
  assert (i = 0 \/ i = 1 \/ i = 2) as [->|[->| ->]] by (unfold blockCount in Hi; simpl in Hi; lia);
    reflexivity.
Defined.


(** ** Where the statements of the design document fail *)

(** C2 as written fails: folding the region of [one_region] hides its end
    line 2 together with line 1. *)
Lemma fold_leaves_ends_visible_fails : ~ fold_leaves_ends_visible.
Proof.
  intros H.
  destruct (H (fresh tt one_region) one_region_folded 1 0 (mkRegion 0 2)
              eq_refl eq_refl eq_refl eq_refl) as [_ Hend].
  discriminate Hend.
Qed.

(** C5 as written fails: in [one_region_folded] lines 1 and 2 are hidden;
    [fold_all] folds the region once more, and [unfold_all] then shows
    them. *)
Lemma fold_all_unfold_all_restores_fails : ~ fold_all_unfold_all_restores.
Proof.
  intros H.
  specialize (H one_region_folded one_region_folded_twice eq_refl).
  discriminate H.
Qed.


(** ** More about region lookup *)

Section RegionFacts.
Context {M : Type} {F : FolderClass M}.
Implicit Types (txt : list string).

Lemma region_backward_opens txt d bs s0 sd c s sd' :
  region_backward txt d bs s0 sd c = (Some s, sd') ->
  (forall x, s0 = Some x -> start (fold_level txt x) <> 0) ->
  start (fold_level txt s) <> 0.
Proof.
  revert s0 sd c. induction bs as [|b bs IH]; intros s0 sd c; simpl.
  - intros [= -> _] H0. by apply H0.
  - destruct (start (fold_level txt b) =? 0) eqn:E; simpl; [apply IH|].
    apply Z.eqb_neq in E.
    destruct (c + start (fold_level txt b) >? sd); [|apply IH].
    case_match.
    + intros [= <- _] _. done.
    + intros Hr _. apply (IH _ _ _ Hr). by intros x [= <-].
Qed.

Lemma region_backward_depth_le txt d bs s0 sd c s sd' :
  region_backward txt d bs s0 sd c = (s, sd') -> sd <= sd'.
Proof.
  revert s0 sd c. induction bs as [|b bs IH]; intros s0 sd c; simpl.
  - intros [= _ <-]. lia.
  - destruct (negb (start (fold_level txt b) =? 0)); [|apply IH].
    destruct (Z.gtb_spec (c + start (fold_level txt b)) sd); [|apply IH].
    case_match.
    + intros [= _ <-]. lia.
    + intros Hr%IH. lia.
Qed.

Lemma region_forward_bound txt bs c e0 :
  exists e, region_forward txt bs c (Some e0) = Some e.
Proof.
  revert c e0. induction bs as [|b bs IH]; intros c e0; simpl; [eauto|].
  case_match; eauto.
Qed.

Lemma region_forward_unbound txt bs c :
  region_forward txt bs c None = None -> bs = [].
Proof.
  destruct bs as [|b bs]; [done|]. simpl. case_match; [done|].
  destruct (region_forward_bound txt bs (c + sum_level (fold_level txt b)) b)
    as [e ->]. done.
Qed.

Lemma region_start_opens txt (b d : Z) (r : Region) :
  region txt b d = Ok (Some r) -> start (fold_level txt (Region_start r)) <> 0.
Proof.
  unfold region.
  destruct (region_backward _ _ _ _ _ _) as [[s|] sd] eqn:Eb; [|done].
  destruct (region_forward _ _ _ _) as [e|]; [|done].
  intros [= <-]. simpl.
  apply (region_backward_opens _ _ _ _ _ _ _ _ Eb). done.
Qed.

(** X1: the region [region] returns lies around the block: its start is at
    or before the block, its end after it, both are blocks of the
    document, and the start line opens a region. *)
Theorem region_around_block txt (b d : Z) (r : Region) :
  region txt b d = Ok (Some r) ->
  isValid txt (Region_start r) = true /\ isValid txt (Region_end r) = true
  /\ Region_start r <= b < Region_end r
  /\ 0 < start (fold_level txt (Region_start r)).
Proof.
  intros Hr. pose proof (region_bounds _ _ _ _ Hr) as Hb.
  split; [apply isValid_spec; lia|]. split; [apply isValid_spec; lia|].
  split; [lia|].
  unfold region in Hr.
  destruct (region_backward _ _ _ _ _ _) as [[s|] sd] eqn:Eb; [|done].
  destruct (region_forward _ _ _ _) as [e|]; [|done].
  injection Hr as <-. simpl.
  pose proof (start_nonneg txt s).
  assert (start (fold_level txt s) <> 0); [|lia].
  apply (region_backward_opens _ _ _ _ _ _ _ _ Eb). done.
Qed.

(** X2: on a block of the document [region] returns none exactly when the
    block has no enclosing region, that is when no line at or before it
    opens a region still open at its end. *)
Theorem region_none_exactly txt (b d : Z) :
  isValid txt b = true ->
  (region txt b d = Ok None <-> has_enclosing_region txt b = false).
Proof. intros Hb. symmetry. by apply region_None_iff. Qed.

(** X3: [region] raises [UnboundLocalError] exactly on the last block of the
    document when that block has an enclosing region; on every other block
    it returns. *)
Theorem region_raises_exactly txt (b d : Z) :
  region txt b d = Raise UnboundLocalError
  <-> is_last_block txt b = true /\ has_enclosing_region txt b = true.
Proof.
  unfold is_last_block.
  destruct (isValid txt b) eqn:Hb; cycle 1.
  { rewrite region_None by (by left). simpl. split; [done|by intros [? _]]. }
  simpl. pose proof (region_None_iff txt b d Hb) as Hiff.
  unfold region in *.
  destruct (region_backward _ _ _ _ _ _) as [[s|] sd] eqn:Eb.
  - assert (has_enclosing_region txt b = true) as He.
    { destruct (has_enclosing_region txt b); [done|].
      destruct Hiff as [Hi _]. specialize (Hi eq_refl).
      revert Hi. by case_match. }
    unfold forwards, next. rewrite Hb.
    destruct (isValid txt (b + 1)) eqn:Hb1; simpl.
    + apply isValid_spec in Hb1.
      change (isValid txt invalid) with false. simpl.
      rewrite seqZ_cons by lia. simpl.
      split; [|by intros [? _]].
      destruct (sd <=? - stop (fold_level txt (b + 1))); [done|].
      match goal with |- context [region_forward txt ?l ?c (Some ?e0)] =>
        destruct (region_forward_bound txt l c e0) as [e ->] end. done.
    + simpl. done.
  - split; [done|]. intros [_ He]. destruct Hiff as [_ Hi].
    rewrite Hi in He; done.
Qed.
Lemma region_backward_no_deeper txt d d' (n : nat) s0 sd c s sd1 s' sd1' :
  no_deeper d d' ->
  (forall x, s0 = Some x -> Z.of_nat n <= x) ->
  region_backward txt d (reverse (seqZ 0 (Z.of_nat n))) s0 sd c = (Some s, sd1) ->
  region_backward txt d' (reverse (seqZ 0 (Z.of_nat n))) s0 sd c = (Some s', sd1') ->
  s' <= s /\ sd1 <= sd1'.
Proof.
  intros Hd. revert s0 sd c.
  induction n as [|n IH]; intros s0 sd c Hs0.
  - simpl. intros [= -> ->] [= -> ->]. lia.
  - rewrite reverse_seqZ_S. simpl.
    assert (forall x, s0 = Some x -> Z.of_nat n <= x) as Hs0'
      by (intros x Hx; specialize (Hs0 x Hx); lia).
    destruct (negb (start (fold_level txt (Z.of_nat n)) =? 0)); [|by apply IH].
    destruct (Z.gtb_spec (c + start (fold_level txt (Z.of_nat n))) sd) as [Hgt|];
      [|by apply IH].
    set (cnt := c + start (fold_level txt (Z.of_nat n))) in *.
    assert (forall x, Some (Z.of_nat n) = Some x -> Z.of_nat n <= x) as Hh
      by (intros x [= <-]; lia).
    destruct ((cnt >? d) && (d >? -1)) eqn:Ed, ((cnt >? d') && (d' >? -1)) eqn:Ed'.
    + intros [= <- <-] [= <- <-]. lia.
    + intros [= <- <-] Hr'.
      pose proof (region_backward_depth_le _ _ _ _ _ _ _ _ Hr').
      apply region_backward_Some in Hr' as [Hin|[= <-]]; [|lia].
      apply elem_of_reverse, elem_of_seqZ in Hin. lia.
    + exfalso. apply andb_true_iff in Ed' as [?%Z.gtb_gt ?%Z.gtb_gt].
      rewrite !Z.gtb_ltb in Ed.
      apply andb_false_iff in Ed as [?%Z.ltb_ge|?%Z.ltb_ge];
        destruct Hd; lia.
    + by apply IH.
Qed.

Lemma region_forward_mono txt (n : nat) a c c' last e e' :
  c <= c' ->
  (forall x, last = Some x -> x < a) ->
  region_forward txt (seqZ a (Z.of_nat n)) c last = Some e ->
  region_forward txt (seqZ a (Z.of_nat n)) c' last = Some e' ->
  e <= e'.
Proof.
  revert a c c' last. induction n as [|n IH]; intros a c c' last Hc Hlast.
  - simpl. intros -> [= ->]. lia.
  - rewrite seqZ_cons by lia. simpl.
    replace (Z.pred (Z.of_nat (S n))) with (Z.of_nat n) by lia.
    destruct (Z.leb_spec c (- stop (fold_level txt a))),
             (Z.leb_spec c' (- stop (fold_level txt a))).
    + intros [= <-] [= <-]. lia.
    + intros [= <-] Hr'.
      apply region_forward_Some in Hr' as [Hin%elem_of_seqZ|[= <-]]; lia.
    + lia.
    + apply IH; [lia|]. intros x [= <-]. lia.
Qed.

(** X4: the depth limit widens the region: a region found with a larger
    depth limit, or with a negative one (the outermost region), contains
    the region found for the same block with a smaller limit. *)
Theorem region_widens_with_depth txt (b d d' : Z) (r r' : Region) :
  no_deeper d d' ->
  region txt b d = Ok (Some r) ->
  region txt b d' = Ok (Some r') ->
  Region_start r' <= Region_start r /\ Region_end r <= Region_end r'.
Proof.
  intros Hd Hr Hr'. pose proof (region_bounds _ _ _ _ Hr) as Hb.
  assert (isValid txt b = true) as Hv by (apply isValid_spec; lia).
  assert (isValid txt (b + 1) = true) as Hv1 by (apply isValid_spec; lia).
  unfold region, backwards, forwards, next in Hr, Hr'.
  rewrite Hv, Hv1 in Hr, Hr'.
  change (isValid txt invalid) with false in Hr, Hr'. simpl in Hr, Hr'.
  destruct (region_backward txt d _ _ _ _) as [[s|] sd] eqn:Eb; [|done].
  destruct (region_backward txt d' _ _ _ _) as [[s'|] sd'] eqn:Eb'; [|done].
  destruct (region_forward txt _ sd None) as [e|] eqn:Ef; [|done].
  destruct (region_forward txt _ sd' None) as [e'|] eqn:Ef'; [|done].
  injection Hr as <-. injection Hr' as <-. simpl.
  replace (b + 1) with (Z.of_nat (Z.to_nat (b + 1))) in Eb, Eb' by lia.
  assert (forall x : Z, @None Z = Some x -> Z.of_nat (Z.to_nat (b + 1)) <= x)
    as Hnone by done.
  destruct (region_backward_no_deeper _ _ _ _ _ _ _ _ _ _ _ Hd Hnone Eb Eb')
    as [Hs Hsd].
  split; [done|].
  replace (blockCount txt - 1 - (b + 1) + 1)
    with (Z.of_nat (Z.to_nat (blockCount txt - 1 - (b + 1) + 1))) in Ef, Ef' by lia.
  assert (forall x : Z, @None Z = Some x -> x < b + 1) as Hnone' by done.
  by apply (region_forward_mono _ _ _ _ _ _ _ _ Hsd Hnone' Ef Ef').
Qed.
End RegionFacts.

(** ** Runs of calls *)

Section Runs.
Context {M : Type} {F : FolderClass M}.
Implicit Types (txt : list string) (st : State M) (doc : list TextBlock).

Lemma unfold_keeps st st' b d full :
  unfold st b d full = Ok st' ->
  texts (document st') = texts (document st)
  /\ forall i, isVisible (document st) i = true -> isVisible (document st') i = true.
Proof.
  unfold unfold. destruct (region _ b d) as [[r|]|]; simpl; [| |done].
  - pose proof (unfold_blocks_mono (texts (document st)) r full
                  (forwards (texts (document st)) (Region_start r) (Region_end r))
                  None (document st) (marks st)) as Hm.
    destruct (unfold_blocks _ _ _ _ _ _ _) as [doc' m']. by intros [= <-].
  - by intros [= <-].
Qed.

Lemma ensure_visible_loop_keeps ds st st' b :
  ensure_visible_loop ds st b = Ok st' ->
  texts (document st') = texts (document st)
  /\ forall i, isVisible (document st) i = true -> isVisible (document st') i = true.
Proof.
  revert st. induction ds as [|d ds IH]; intros st; simpl.
  - by intros [= <-].
  - destruct (unfold st b d false) as [st1|] eqn:Hu; simpl; [|done].
    apply unfold_keeps in Hu as [Ht Hv].
    destruct (isVisible (document st1) b).
    + by intros [= <-].
    + intros [Ht' Hv']%IH. split; [by rewrite Ht'|]. intros i Hi. by apply Hv', Hv.
Qed.

Lemma ensure_visible_keeps st st' b :
  ensure_visible st b = Ok st' ->
  texts (document st') = texts (document st)
  /\ forall i, isVisible (document st) i = true -> isVisible (document st') i = true.
Proof.
  unfold ensure_visible. destruct (isVisible (document st) b).
  - by intros [= <-].
  - apply ensure_visible_loop_keeps.
Qed.

Lemma unfold_all_keeps st :
  texts (document (unfold_all st)) = texts (document st)
  /\ forall i, isVisible (document st) i = true ->
         isVisible (document (unfold_all st)) i = true.
Proof.
  unfold unfold_all.
  pose proof (unfold_all_blocks_shows (texts (document st))
                (all_blocks (texts (document st))) (document st) (marks st) None)
    as (Ht & Hv & _).
  by destruct (unfold_all_blocks _ _ _ _ _) as [[doc' m'] span].
Qed.

(** The lines a [fold] hides come after the start line of its region, which
    opens a region; it shows no line. *)
Lemma fold_hides st st' b d :
  fold st b d = Ok st' ->
  forall i, isVisible (document st') i = false ->
    isVisible (document st) i = false
    \/ exists j, 0 <= j < i /\ start (fold_level (texts (document st)) j) <> 0.
Proof.
  intros Hf i Hi. destruct (region (texts (document st)) b d) as [[r|]|] eqn:Hr.
  - rewrite (fold_region st b d r Hr) in Hf. injection Hf as <-. simpl in Hi.
    pose proof (region_start_opens _ _ _ _ Hr) as Hopen.
    pose proof (region_bounds _ _ _ _ Hr) as Hb.
    destruct (decide (Region_start r < i)) as [Hlt|Hge].
    + right. exists (Region_start r). lia.
    + left. rewrite isVisible_setVisible_all_notin in Hi; [done|].
      intros Hin%elem_of_seqZ. lia.
  - unfold fold in Hf. rewrite Hr in Hf. injection Hf as <-. by left.
  - unfold fold in Hf. by rewrite Hr in Hf.
Qed.

Lemma fold_all_blocks_hides bs st st' :
  fold_all_blocks bs st = Ok st' ->
  forall i, isVisible (document st') i = false ->
    isVisible (document st) i = false
    \/ exists j, 0 <= j < i /\ start (fold_level (texts (document st)) j) <> 0.
Proof.
  revert st. induction bs as [|b bs IH]; intros st; simpl.
  - intros [= <-] i Hi. by left.
  - destruct (negb (isVisible (document st) b)); [apply IH|].
    destruct (negb (start (fold_level (texts (document st)) b) =? 0)); [|apply IH].
    destruct (fold st b 0) as [st1|] eqn:Hf; simpl; [|done].
    intros Hr i Hi. pose proof (texts_fold _ _ _ _ Hf) as Ht.
    destruct (IH _ Hr i Hi) as [H1|H1].
    + by apply (fold_hides _ _ _ _ Hf).
    + right. by rewrite <- Ht.
Qed.

Lemma perform_keeps_text st st' a :
  perform st a = Ok st' -> texts (document st') = texts (document st).
Proof.
  destruct a as [b d|b d full| | |b]; simpl.
  - apply texts_fold.
  - by intros [? _]%unfold_keeps.
  - apply texts_fold_all_blocks.
  - intros [= <-]. apply unfold_all_keeps.
  - by intros [? _]%ensure_visible_keeps.
Qed.

(** X5: no run of calls changes the text of the document: its lines and
    their number stay as they were. *)
Theorem perform_all_keeps_text st st' (l : list Action) :
  perform_all st l = Ok st' -> texts (document st') = texts (document st).
Proof.
  revert st. induction l as [|a l IH]; intros st; simpl.
  - by intros [= <-].
  - destruct (perform st a) as [st1|] eqn:Ha; simpl; [|done].
    intros Hl. rewrite (IH _ Hl). by apply (perform_keeps_text _ _ a).
Qed.

Lemma fold_only_hides st st' b d i :
  fold st b d = Ok st' ->
  isVisible (document st') i = true -> isVisible (document st) i = true.
Proof.
  intros Hf. destruct (region (texts (document st)) b d) as [[r|]|] eqn:Hr.
  - rewrite (fold_region st b d r Hr) in Hf. injection Hf as <-. simpl.
    pose proof (region_bounds _ _ _ _ Hr) as Hb.
    destruct (region_valid _ _ _ _ Hr) as (_ & _ & _ & _ & Hle).
    rewrite isVisible_setVisible_all_seqZ.
    + by destruct (_ && _).
    + intros k Hk. apply isValid_spec. lia.
  - unfold fold in Hf. rewrite Hr in Hf. by injection Hf as <-.
  - unfold fold in Hf. by rewrite Hr in Hf.
Qed.

Lemma fold_all_blocks_only_hides bs st st' i :
  fold_all_blocks bs st = Ok st' ->
  isVisible (document st') i = true -> isVisible (document st) i = true.
Proof.
  revert st. induction bs as [|b bs IH]; intros st; simpl.
  - by intros [= <-].
  - destruct (negb (isVisible (document st) b)); [apply IH|].
    destruct (negb (start (fold_level (texts (document st)) b) =? 0)); [|apply IH].
    destruct (fold st b 0) as [st1|] eqn:Hf; simpl; [|done].
    intros Hr Hi. apply (fold_only_hides _ _ _ _ _ Hf). by apply (IH _ Hr).
Qed.

(** X6: the calls that fold show no line, and the calls that unfold hide
    none. *)
Theorem perform_one_way st st' (a : Action) :
  perform st a = Ok st' ->
  forall i,
    if folds a
    then isVisible (document st') i = true -> isVisible (document st) i = true
    else isVisible (document st) i = true -> isVisible (document st') i = true.
Proof.
  intros Ha i. destruct a as [b d|b d full| | |b]; simpl in *.
  - apply (fold_only_hides _ _ _ _ _ Ha).
  - apply unfold_keeps in Ha as [_ Hv]. apply Hv.
  - apply (fold_all_blocks_only_hides _ _ _ _ Ha).
  - injection Ha as <-. apply unfold_all_keeps.
  - apply ensure_visible_keeps in Ha as [_ Hv]. apply Hv.
Qed.

Lemma perform_hidden_after_opener st st' a :
  perform st a = Ok st' ->
  hidden_after_opener (document st) -> hidden_after_opener (document st').
Proof.
  intros Ha Hinv i Hi. rewrite (perform_keeps_text _ _ _ Ha).
  assert (isVisible (document st) i = false
          \/ exists j, 0 <= j < i
                /\ start (fold_level (texts (document st)) j) <> 0) as [H|H];
    [|by apply Hinv|done].
  destruct a as [b d|b d full| | |b]; simpl in Ha.
  - by apply (fold_hides _ _ _ _ Ha).
  - left. apply unfold_keeps in Ha as [_ Hv].
    destruct (isVisible (document st) i) eqn:E; [|done]. by rewrite Hv in Hi.
  - by apply (fold_all_blocks_hides _ _ _ Ha).
  - left. injection Ha as <-. pose proof (unfold_all_keeps st) as [_ Hv].
    destruct (isVisible (document st) i) eqn:E; [|done]. by rewrite Hv in Hi.
  - left. apply ensure_visible_keeps in Ha as [_ Hv].
    destruct (isVisible (document st) i) eqn:E; [|done]. by rewrite Hv in Hi.
Qed.

(** X7: starting from a document in which every hidden line comes after a
    line that opens a region (for one, a document with every line
    visible), every run of calls leaves a document of that kind: the engine
    never hides the first line, nor any line before the first opening
    line. *)
Theorem perform_all_hidden_after_opener st st' (l : list Action) :
  hidden_after_opener (document st) ->
  perform_all st l = Ok st' ->
  hidden_after_opener (document st').
Proof.
  revert st. induction l as [|a l IH]; intros st Hinv; simpl.
  - by intros [= <-].
  - destruct (perform st a) as [st1|] eqn:Ha; simpl; [|done].
    apply IH. by apply (perform_hidden_after_opener st st1 a).
Qed.
(** X8: folding is idempotent: a second [fold] of the same block with the
    same depth limit returns as well and leaves the visibility flags as the
    first left them. *)
Theorem fold_twice st st1 (b d : Z) :
  fold st b d = Ok st1 ->
  exists st2, fold st1 b d = Ok st2
              /\ flags (document st2) = flags (document st1).
Proof.
  intros Hf. pose proof (texts_fold _ _ _ _ Hf) as Ht.
  destruct (region (texts (document st)) b d) as [[r|]|] eqn:Hr.
  - assert (region (texts (document st1)) b d = Ok (Some r)) as Hr1
      by (by rewrite Ht).
    rewrite (fold_region st1 b d r Hr1). eexists. split; [done|]. simpl.
    rewrite (fold_region st b d r Hr) in Hf. injection Hf as <-. simpl in *.
    apply flags_ext; [by rewrite !texts_setVisible_all|].
    intros i. rewrite texts_setVisible_all.
    pose proof (region_bounds _ _ _ _ Hr) as Hb.
    destruct (region_valid _ _ _ _ Hr) as (_ & _ & _ & _ & Hle).
    rewrite !isVisible_setVisible_all_seqZ.
    + by destruct (_ && _).
    + intros k Hk. apply isValid_spec. lia.
    + intros k Hk. rewrite texts_setVisible_all. apply isValid_spec. lia.
  - unfold fold in Hf. rewrite Hr in Hf. injection Hf as <-.
    exists st. split; [|done]. unfold fold. by rewrite Hr.
  - unfold fold in Hf. by rewrite Hr in Hf.
Qed.

Lemma region_returns_before_last txt b d :
  isValid txt (b + 1) = true -> region txt b d <> Raise UnboundLocalError.
Proof.
  intros Hb1. destruct (isValid txt b) eqn:Hb;
    [|by rewrite region_None by (by left)].
  unfold region.
  destruct (region_backward _ _ _ _ _ _) as [[s|] sd]; [|done].
  unfold forwards, next. rewrite Hb, Hb1.
  change (isValid txt invalid) with false. simpl.
  apply isValid_spec in Hb1. rewrite seqZ_cons by lia. simpl.
  destruct (sd <=? - stop (fold_level txt (b + 1))); [done|].
  match goal with |- context [region_forward txt ?l ?c (Some ?e0)] =>
    destruct (region_forward_bound txt l c e0) as [e ->] end. done.
Qed.

Lemma fold_returns_before_last st b d :
  isValid (texts (document st)) (b + 1) = true ->
  exists st', fold st b d = Ok st'.
Proof.
  intros Hb1. pose proof (region_returns_before_last _ b d Hb1) as Hr.
  unfold fold. destruct (region _ b d) as [[r|]|[]]; simpl; eauto. done.
Qed.

Lemma fold_all_blocks_returns bs st :
  (forall b, is_last_block (texts (document st)) b = true ->
     start (fold_level (texts (document st)) b) = 0) ->
  (forall b, b ∈ bs -> isValid (texts (document st)) b = true) ->
  exists st', fold_all_blocks bs st = Ok st'.
Proof.
  revert st. induction bs as [|b bs IH]; intros st Hlast Hbs; simpl; [eauto|].
  assert (forall b', b' ∈ bs -> isValid (texts (document st)) b' = true) as Hbs'
    by (intros b' Hb'; apply Hbs; by right).
  destruct (negb (isVisible (document st) b)); [by apply IH|].
  destruct (negb (start (fold_level (texts (document st)) b) =? 0)) eqn:Es;
    [|by apply IH].
  apply negb_true_iff, Z.eqb_neq in Es.
  destruct (fold_returns_before_last st b 0) as [st1 Hf].
  - destruct (isValid (texts (document st)) (b + 1)) eqn:Hb1; [done|].
    exfalso. apply Es, Hlast. unfold is_last_block.
    rewrite Hb1, (Hbs b) by (by left). done.
  - rewrite Hf. simpl. pose proof (texts_fold _ _ _ _ Hf) as Ht.
    apply IH; by rewrite Ht.
Qed.

(** X9: [fold_all] completes on every document whose last line opens no
    region (the exception of [region] needs a last line with an enclosing
    region). *)
Theorem fold_all_returns st :
  (forall b, is_last_block (texts (document st)) b = true ->
     start (fold_level (texts (document st)) b) = 0) ->
  exists st', fold_all st = Ok st'.
Proof.
  intros Hlast. apply fold_all_blocks_returns; [done|].
  intros b Hb. unfold all_blocks, forwards in Hb.
  destruct (isValid (texts (document st)) 0) eqn:H0; [|by apply elem_of_nil in Hb].
  change (isValid (texts (document st)) invalid) with false in Hb. simpl in Hb.
  apply elem_of_seqZ in Hb. apply isValid_spec. lia.
Qed.

(** *** [unfold_all] *)

Lemma unfold_all_blocks_marks txt bs doc m span j :
  mark_clears F ->
  collapsed m j = false \/ (j ∈ bs /\ start (fold_level txt j) <> 0) ->
  collapsed (unfold_all_blocks txt bs doc m span).1.2 j = false.
Proof.
  intros [Hclr Hoth]. revert doc m span.
  induction bs as [|b bs IH]; intros doc m span H.
  - destruct H as [?|[[]%elem_of_nil _]]. done.
  - simpl.
    assert (collapsed (if negb (start (fold_level txt b) =? 0)
                       then (mark b (Some false) m).2 else m) j = false
            \/ (j ∈ bs /\ start (fold_level txt j) <> 0)) as H'.
    { destruct (negb (start (fold_level txt b) =? 0)) eqn:Es.
      - destruct (decide (j = b)) as [->|Hne]; [left; apply Hclr|].
        destruct H as [H|[Hin ?]].
        + left. by rewrite Hoth.
        + right. apply elem_of_cons in Hin as [?|?]; done.
      - destruct H as [H|[Hin Hs]]; [by left|].
        apply elem_of_cons in Hin as [->|?]; [|by right].
        apply negb_false_iff, Z.eqb_eq in Es. done. }
    destruct (negb (isVisible doc b)); by apply IH.
Qed.

(** X10: after [unfold_all] no line that opens a region is reported as
    collapsed (for a [mark] hook whose [mark(b, False)] clears [b] and
    nothing else). *)
Theorem unfold_all_clears_marks st (j : Z) :
  mark_clears F ->
  isValid (texts (document st)) j = true ->
  start (fold_level (texts (document st)) j) <> 0 ->
  collapsed (marks (unfold_all st)) j = false.
Proof.
  intros Hlaws Hj Hs. unfold unfold_all.
  pose proof (unfold_all_blocks_marks (texts (document st))
                (all_blocks (texts (document st))) (document st) (marks st)
                None j Hlaws) as Hm.
  destruct (unfold_all_blocks _ _ _ _ _) as [[doc' m'] span]. simpl in *.
  apply Hm. right. split; [by apply elem_of_all_blocks|done].
Qed.
Lemma unfold_all_blocks_visible txt (n : nat) a doc m span :
  (forall i, a <= i < a + Z.of_nat n -> isVisible doc i = true) ->
  (unfold_all_blocks txt (seqZ a (Z.of_nat n)) doc m span).1.1 = doc
  /\ (unfold_all_blocks txt (seqZ a (Z.of_nat n)) doc m span).2 = span.
Proof.
  revert a m. induction n as [|n IH]; intros a m Hv; [done|].
  rewrite seqZ_cons by lia. simpl.
  replace (Z.pred (Z.of_nat (S n))) with (Z.of_nat n) by lia.
  rewrite (Hv a) by lia. simpl. apply IH. intros i Hi. apply Hv. lia.
Qed.

Lemma unfold_all_blocks_last txt (n : nat) a doc m f l0 hi :
  a <= hi < a + Z.of_nat n ->
  isVisible doc hi = false ->
  (forall i, a <= i < a + Z.of_nat n -> isVisible doc i = false -> i <= hi) ->
  (unfold_all_blocks txt (seqZ a (Z.of_nat n)) doc m (Some (f, l0))).2
  = Some (f, hi).
Proof.
  revert a doc m l0. induction n as [|n IH]; intros a doc m l0 Hhi Hh Hall; [lia|].
  rewrite seqZ_cons by lia. simpl.
  replace (Z.pred (Z.of_nat (S n))) with (Z.of_nat n) by lia.
  destruct (isVisible doc a) eqn:Ea; simpl.
  - apply IH; [|done|].
    + destruct (decide (hi = a)) as [->|]; [congruence|lia].
    + intros i Hi. apply Hall. lia.
  - destruct (decide (hi = a)) as [->|Hne].
    + apply unfold_all_blocks_visible. intros i Hi.
      rewrite isVisible_setVisible_ne by lia.
      destruct (isVisible doc i) eqn:Ei; [done|].
      specialize (Hall i ltac:(lia) Ei). lia.
    + apply IH; [lia|by rewrite isVisible_setVisible_ne|].
      intros i Hi. rewrite isVisible_setVisible_ne by lia. apply Hall. lia.
Qed.

Lemma unfold_all_blocks_span txt (n : nat) a doc m lo hi :
  a <= lo <= hi -> hi < a + Z.of_nat n ->
  isVisible doc lo = false -> isVisible doc hi = false ->
  (forall i, a <= i < a + Z.of_nat n -> isVisible doc i = false -> lo <= i <= hi) ->
  (unfold_all_blocks txt (seqZ a (Z.of_nat n)) doc m None).2 = Some (lo, hi).
Proof.
  revert a doc m. induction n as [|n IH]; intros a doc m Hlo Hhi Hl Hh Hall; [lia|].
  rewrite seqZ_cons by lia. simpl.
  replace (Z.pred (Z.of_nat (S n))) with (Z.of_nat n) by lia.
  destruct (isVisible doc a) eqn:Ea; simpl.
  - apply IH; [|lia|done|done|].
    + destruct (decide (lo = a)) as [->|]; [congruence|lia].
    + intros i Hi. apply Hall. lia.
  - assert (lo = a) as -> by (specialize (Hall a ltac:(lia) Ea); lia).
    destruct (decide (hi = a)) as [->|Hne].
    + apply unfold_all_blocks_visible. intros i Hi.
      rewrite isVisible_setVisible_ne by lia.
      destruct (isVisible doc i) eqn:Ei; [done|].
      specialize (Hall i ltac:(lia) Ei). lia.
    + apply unfold_all_blocks_last; [lia|by rewrite isVisible_setVisible_ne|].
      intros i Hi. rewrite isVisible_setVisible_ne by lia.
      intros Hidden. specialize (Hall i ltac:(lia) Hidden). lia.
Qed.

Lemma isVisible_false_valid doc i :
  isVisible doc i = false -> 0 <= i < Z.of_nat (length doc).
Proof.
  unfold isVisible. destruct (isValid (texts doc) i) eqn:E; [|done].
  intros _. apply isValid_spec in E. by rewrite blockCount_texts in E.
Qed.

Lemma all_blocks_seqZ txt :
  all_blocks txt = seqZ 0 (Z.of_nat (length txt)).
Proof.
  unfold all_blocks, forwards. change (isValid txt invalid) with false. simpl.
  destruct (isValid txt 0) eqn:E.
  - unfold blockCount. f_equal. lia.
  - destruct txt; [done|]. by compute in E.
Qed.

Lemma unfold_all_visible_noop st :
  (forall i, isVisible (document st) i = true) ->
  document (unfold_all st) = document st /\ dirty (unfold_all st) = dirty st.
Proof.
  intros Hv. unfold unfold_all. rewrite all_blocks_seqZ.
  pose proof (unfold_all_blocks_visible (texts (document st))
                (length (texts (document st))) 0 (document st) (marks st) None
                ltac:(intros; apply Hv)) as [Hd Hs].
  destruct (unfold_all_blocks _ _ _ _ _) as [[doc' m'] span]. simpl in *.
  by subst.
Qed.

(** X11: [unfold_all] on a document with no hidden line changes no flag and
    signals no repaint. *)
Theorem unfold_all_nothing_hidden st :
  (forall i, isVisible (document st) i = true) ->
  document (unfold_all st) = document st /\ dirty (unfold_all st) = dirty st.
Proof. apply unfold_all_visible_noop. Qed.

(** X12: when some line is hidden, [unfold_all] signals exactly one repaint,
    of the span from the first hidden line to the last hidden line. *)
Theorem unfold_all_repaints_hidden_span st (lo hi : Z) :
  isVisible (document st) lo = false ->
  isVisible (document st) hi = false ->
  (forall i, isVisible (document st) i = false -> lo <= i <= hi) ->
  dirty (unfold_all st) = (lo, hi) :: dirty st.
Proof.
  intros Hl Hh Hall. unfold unfold_all. rewrite all_blocks_seqZ.
  pose proof (isVisible_false_valid _ _ Hl) as Hlv.
  pose proof (isVisible_false_valid _ _ Hh) as Hhv.
  pose proof (Hall hi Hh) as Hle.
  pose proof (unfold_all_blocks_span (texts (document st))
                (length (texts (document st))) 0 (document st) (marks st) lo hi)
    as Hs.
  assert (length (texts (document st)) = length (document st)) as Hlen
    by apply length_fmap.
  specialize (Hs ltac:(lia) ltac:(lia) Hl Hh ltac:(intros; by apply Hall)).
  destruct (unfold_all_blocks _ _ _ _ _) as [[doc' m'] span]. simpl in *.
  by subst.
Qed.
End Runs.

(** ** Painting *)

Section PaintFacts.
Context {M : Type} {F : FolderClass M}.
Variable below : Z -> bool.
Implicit Types (doc : list TextBlock).

Lemma paint_blocks_calls doc bs depth0 pending :
  (forall b0 cnt, pending = Some (b0, cnt) -> indicator_of doc b0 = Some OPEN) ->
  (fun c => (draw_block c, draw_indicator c)) <$> paint_blocks below doc bs depth0 pending
  = match pending with Some (b0, _) => [(b0, Some OPEN)] | None => [] end
    ++ ((fun b => (b, indicator_of doc b)) <$> visible_blocks_from below doc bs).
Proof.
  revert depth0 pending. induction bs as [|b bs IH]; intros depth0 pending Hp.
  - destruct pending as [[b0 cnt]|]; done.
  - assert (forall d, (fun c => (draw_block c, draw_indicator c)) <$>
              (if below b then []
               else if negb (start (fold_level (texts doc) b) =? 0) then
                 if isValid (texts doc) (next (texts doc) b)
                    && negb (isVisible doc (next (texts doc) b))
                 then paint_blocks below doc bs d
                        (Some (b, sum_level (fold_level (texts doc) b)))
                 else mkDraw b (Some CLOSE) d (d + sum_level (fold_level (texts doc) b))
                      :: paint_blocks below doc bs
                           (d + sum_level (fold_level (texts doc) b)) None
               else mkDraw b None d (d + sum_level (fold_level (texts doc) b))
                    :: paint_blocks below doc bs
                         (d + sum_level (fold_level (texts doc) b)) None)
            = (fun b => (b, indicator_of doc b)) <$>
              (if below b then [] else b :: visible_blocks_from below doc bs))
      as Hnormal.
    { intros d. destruct (below b); [done|].
      destruct (start (fold_level (texts doc) b) =? 0) eqn:Es.
      - assert (indicator_of doc b = None) as Hi
          by (unfold indicator_of; by rewrite Es).
        simpl. rewrite IH by done. simpl. by rewrite Hi.
      - destruct (isValid _ _ && negb _) eqn:Ef.
        + assert (indicator_of doc b = Some OPEN) as Hi
            by (unfold indicator_of; by rewrite Es, Ef).
          simpl. rewrite IH; [simpl; by rewrite Hi|].
          by intros b0 cnt [= <- <-].
        + assert (indicator_of doc b = Some CLOSE) as Hi
            by (unfold indicator_of; by rewrite Es, Ef).
          simpl. rewrite IH by done. simpl. by rewrite Hi. }
    simpl. destruct pending as [[b0 cnt]|].
    + destruct (negb (isVisible doc b)) eqn:Eb.
      * rewrite IH; [done|]. intros b1 cnt1 [= <- <-]. by eapply Hp.
      * simpl. f_equal. apply Hnormal.
    + destruct (isVisible doc b) eqn:Eb; simpl.
      * apply Hnormal.
      * by apply IH.
Qed.

(** X13: [FoldingArea.paintEvent] calls [draw] once for each block that
    [visible_blocks] yields for the same first block and the same exposed
    area, in that order, and with the indicator of the block: none when it
    opens no region, [OPEN] when the block after it is hidden, [CLOSE]
    otherwise. *)
Theorem paintEvent_draws_visible_blocks doc (first : Z) :
  (fun c => (draw_block c, draw_indicator c)) <$> paintEvent below doc first
  = (fun b => (b, indicator_of doc b)) <$> visible_blocks below doc first.
Proof. unfold paintEvent, visible_blocks. by rewrite paint_blocks_calls. Qed.

Lemma paintEvent_calls_from doc (first : Z) :
  (fun c => (draw_block c, draw_indicator c)) <$> paintEvent below doc first
  = (fun b => (b, indicator_of doc b)) <$> visible_blocks below doc first.
Proof. unfold paintEvent, visible_blocks. by rewrite paint_blocks_calls. Qed.
Lemma depth_spec_succ txt a :
  0 <= a -> depth_spec txt (a + 1) = depth_spec txt a + net txt a.
Proof. intros Ha. unfold depth_spec. by rewrite sumZ_seqZ_snoc by lia. Qed.

Lemma events_net txt a :
  Forall (fun s => Forall is_event (fold_events s)) txt ->
  isValid txt a = true ->
  sum_events (fold_events (block_text txt a)) = net txt a.
Proof.
  intros Hc Ha. unfold net, fold_level. rewrite sum_level_of_events; [done|].
  rewrite Forall_forall in Hc. apply Hc.
  apply list_elem_of_lookup. exists (Z.to_nat a). by apply block_text_lookup.
Qed.

Lemma paint_blocks_depths doc (n : nat) a depth0 pending :
  Forall (fun s => Forall is_event (fold_events s)) (texts doc) ->
  0 <= a -> a + Z.of_nat n = blockCount (texts doc) ->
  match pending with
  | None => depth0 = depth_spec (texts doc) a
  | Some (b0, cnt) =>
      depth0 = depth_spec (texts doc) b0
      /\ depth0 + cnt = depth_spec (texts doc) a
      /\ 0 <= b0 < a
      /\ forall k, b0 < k < a -> isVisible doc k = false
  end ->
  Forall (draw_depths_ok doc) (paint_blocks below doc (seqZ a (Z.of_nat n)) depth0 pending).
Proof.
  intros Hc. revert a depth0 pending.
  induction n as [|n IH]; intros a depth0 pending Ha Hn Hinv.
  - simpl. destruct pending as [[b0 cnt]|]; [|constructor].
    destruct Hinv as (Hd & Hnew & Hb0 & Hhid).
    constructor; [|constructor]. unfold draw_depths_ok. simpl.
    split; [apply isValid_spec; lia|]. split; [done|].
    exists a. repeat split; try done; try lia.
    intros _. apply isVisible_invalid.
    destruct (isValid (texts doc) a) eqn:E; [|done].
    apply isValid_spec in E. lia.
  - rewrite seqZ_cons by lia. change (Z.succ a) with (a + 1).
    replace (Z.pred (Z.of_nat (S n))) with (Z.of_nat n) by lia.
    assert (isValid (texts doc) a = true) as Hva by (apply isValid_spec; lia).
    pose proof (depth_spec_succ (texts doc) a Ha) as Hsucc.
    assert (next (texts doc) a = a + 1) as Hnext by (unfold next; by rewrite Hva).
    assert (Forall (draw_depths_ok doc)
              (if below a then []
               else if negb (start (fold_level (texts doc) a) =? 0) then
                 if isValid (texts doc) (next (texts doc) a)
                    && negb (isVisible doc (next (texts doc) a))
                 then paint_blocks below doc (seqZ (a + 1) (Z.of_nat n))
                        (depth_spec (texts doc) a)
                        (Some (a, sum_level (fold_level (texts doc) a)))
                 else mkDraw a (Some CLOSE) (depth_spec (texts doc) a)
                        (depth_spec (texts doc) a + sum_level (fold_level (texts doc) a))
                      :: paint_blocks below doc (seqZ (a + 1) (Z.of_nat n))
                           (depth_spec (texts doc) a
                            + sum_level (fold_level (texts doc) a)) None
               else mkDraw a None (depth_spec (texts doc) a)
                      (depth_spec (texts doc) a + sum_level (fold_level (texts doc) a))
                    :: paint_blocks below doc (seqZ (a + 1) (Z.of_nat n))
                         (depth_spec (texts doc) a
                          + sum_level (fold_level (texts doc) a)) None))
      as Hnormal.
    { destruct (below a); [constructor|].
      destruct (negb (start (fold_level (texts doc) a) =? 0)).
      - destruct (isValid _ _ && negb _) eqn:Ef.
        + apply IH; [lia|lia|]. repeat split; try lia. done.
        + constructor; [|apply IH; [lia|lia|done]].
          unfold draw_depths_ok. simpl. split; [done|]. split; [done|].
          exists (a + 1). repeat split; try done; try lia.
          intros _. rewrite Hnext in Ef.
          destruct (isValid (texts doc) (a + 1)) eqn:E;
            [|by apply isVisible_invalid].
          simpl in Ef. by apply negb_false_iff in Ef.
      - constructor; [|apply IH; [lia|lia|done]].
        unfold draw_depths_ok. simpl. split; [done|]. split; [done|].
        exists (a + 1). repeat split; try done; lia. }
    simpl. destruct pending as [[b0 cnt]|].
    + destruct Hinv as (Hd & Hnew & Hb0 & Hhid).
      destruct (negb (isVisible doc a)) eqn:Ea.
      * apply IH; [lia|lia|]. apply negb_true_iff in Ea.
        rewrite (events_net _ _ Hc Hva).
        split; [done|]. split; [lia|]. split; [lia|].
        intros k Hk. destruct (decide (k = a)) as [->|]; [done|].
        apply Hhid. lia.
      * apply negb_false_iff in Ea. constructor.
        -- unfold draw_depths_ok. simpl.
           split; [apply isValid_spec; lia|]. split; [done|].
           exists a. repeat split; try done; lia.
        -- rewrite Hnew. apply Hnormal.
    + subst depth0. destruct (isVisible doc a); [apply Hnormal|].
      apply IH; [lia|lia|]. unfold net in Hsucc. by rewrite Hsucc.
Qed.

(** X14: for a rule that yields only [START] and [STOP], each call of [draw]
    by [FoldingArea.paintEvent] gets as [depth] the value of
    [Folder.depth] for its block, and as [new_depth] the depth at the block
    after it when the block carries no indicator, and otherwise at the
    first visible block after it: the depth the painter tracks by adding
    up counts never drifts from the depth of the folder. *)
Theorem paintEvent_depths doc (first : Z) :
  Forall (fun s => Forall is_event (fold_events s)) (texts doc) ->
  isValid (texts doc) first = true ->
  Forall (fun c => draw_depth c = depth (texts doc) (draw_block c)
                   /\ draw_depths_ok doc c)
         (paintEvent below doc first).
Proof.
  intros Hc Hf. unfold paintEvent, forwards. rewrite Hf.
  change (isValid (texts doc) invalid) with false. simpl.
  pose proof Hf as Hf'. apply isValid_spec in Hf'.
  replace (blockCount (texts doc) - 1 - first + 1)
    with (Z.of_nat (Z.to_nat (blockCount (texts doc) - first))) by lia.
  eapply Forall_impl.
  - apply paint_blocks_depths; [done|lia|lia|].
    by apply depth_refines_when_events.
  - intros c Hok. split; [|done]. destruct Hok as (Hv & Hd & _).
    by rewrite depth_refines_when_events.
Qed.

(** X15: every block on which [FoldingArea.paintEvent] draws the [OPEN]
    indicator is a block under which [LinePainter.paintEvent] draws its
    line, for the same first block and exposed area. *)
Theorem open_indicator_has_line doc (first : Z) (c : Draw) :
  c ∈ paintEvent below doc first ->
  draw_indicator c = Some OPEN ->
  draw_block c ∈ lines_drawn below doc first.
Proof.
  intros Hc Hopen.
  assert ((draw_block c, draw_indicator c)
          ∈ (fun b => (b, indicator_of doc b)) <$> visible_blocks below doc first)
    as Hin.
  { rewrite <- paintEvent_calls_from. apply list_elem_of_fmap. eauto. }
  apply list_elem_of_fmap in Hin as (b & [= Hb Hi] & Hvis).
  unfold lines_drawn. apply list_elem_of_filter. rewrite Hb. split; [|done].
  rewrite Hopen in Hi. unfold indicator_of in Hi.
  destruct (start (fold_level (texts doc) b) =? 0); [done|].
  destruct (isValid (texts doc) (next (texts doc) b)) eqn:Ev; simpl in Hi; [|done].
  destruct (isVisible doc (next (texts doc) b)) eqn:Ei; simpl in Hi; [done|].
  done.
Qed.
End PaintFacts.

(** ** Making a line visible *)

Section EnsureVisible.
Context {M : Type} {F : FolderClass M}.

(** X16: when the hook reports no block as collapsed (as the default one
    does), [ensure_visible] on a hidden line that is not the last line, has
    an enclosing region and lies at depth 1 or more makes the line visible,
    with one call of [unfold], for the outermost depth limit. *)
Theorem ensure_visible_shows (st : State M) (b : Z) :
  mark_getter_pure F ->
  (forall j, collapsed (marks st) j = false) ->
  isVisible (document st) b = false ->
  isValid (texts (document st)) (b + 1) = true ->
  has_enclosing_region (texts (document st)) b = true ->
  1 <= depth (texts (document st)) b ->
  exists st',
    ensure_visible st b = Ok st'
    /\ isVisible (document st') b = true
    /\ unfold st b (depth (texts (document st)) b - 1) false = Ok st'.
Proof.
  intros Hp Hnone Hb Hb1 Henc Hd.
  set (d := depth (texts (document st)) b - 1).
  assert (isValid (texts (document st)) b = true) as Hv.
  { destruct (isValid (texts (document st)) b) eqn:E; [done|].
    by rewrite isVisible_invalid in Hb. }
  destruct (region (texts (document st)) b d) as [[r|]|[]] eqn:Hr.
  - pose proof (region_bounds _ _ _ _ Hr) as Hbd.
    pose proof (unfold_region st b d false r Hr) as Hu. simpl in Hu.
    rewrite <- (app_nil_r (seqZ _ _)) in Hu.
    rewrite unfold_blocks_unmarked in Hu by done. simpl in Hu.
    eexists. split; [|split; [|exact Hu]].
    + unfold ensure_visible. rewrite Hb.
      replace (depth (texts (document st)) b)
        with (Z.of_nat (S (Z.to_nat d))) by (unfold d; lia).
      rewrite reverse_seqZ_S. simpl.
      replace (Z.of_nat (Z.to_nat d)) with d by (unfold d; lia).
      rewrite Hu. simpl.
      rewrite isVisible_setVisible_all_in; [done|apply elem_of_seqZ; lia|done].
    + simpl. apply isVisible_setVisible_all_in; [apply elem_of_seqZ; lia|done].
  - apply region_None_iff in Hr; [congruence|done].
  - by apply region_returns_before_last in Hr.
Qed.
End EnsureVisible.

(** ** The folder of a document *)

Lemma find_spec cls children o :
  find cls children = Some o <->
  children !! o = Some cls
  /\ forall j, (j < o)%nat -> children !! j <> Some cls.
Proof.
  unfold find. split.
  - destruct (list_find _ children) as [[i x]|] eqn:E; [|done].
    intros [= <-]. apply list_find_Some in E as (Hi & -> & Hlt).
    split; [done|]. intros j Hj Hc. by apply (Hlt j cls).
  - intros [Ho Hlt].
    assert (list_find (fun c => c = cls) children = Some (o, cls)) as ->; [|done].
    apply list_find_Some. split; [done|]. split; [done|].
    intros j y Hy Hj ->. by apply (Hlt j).
Qed.

(** X17: [Folder.get] gives a document one folder per class: the object it
    returns is a child of exactly that class, [find] returns it from then
    on, a second [get] returns the same object and adds no child, the
    children there were keep their place, and the folders of other classes
    are found as before. *)
Theorem get_is_per_class_singleton (cls : string) (children : list string) :
  let o := (get cls children).1 in
  let children' := (get cls children).2 in
  children' !! o = Some cls
  /\ find cls children' = Some o
  /\ get cls children' = (o, children')
  /\ (forall i c, children !! i = Some c -> children' !! i = Some c)
  /\ (forall cls', cls' <> cls -> find cls' children' = find cls' children).
Proof.
  unfold get. destruct (find cls children) as [o|] eqn:E; simpl.
  - rewrite E. apply find_spec in E as [Ho Hlt]. done.
  - assert (find cls (children ++ [cls]) = Some (length children)) as Hf.
    { apply find_spec. split.
      - rewrite lookup_app_r by lia. by rewrite Nat.sub_diag.
      - intros j Hj Hc. rewrite lookup_app_l in Hc by done.
        unfold find in E.
        destruct (list_find _ children) as [[i x]|] eqn:El; [done|].
        apply list_find_None in El. rewrite Forall_forall in El.
        apply (El cls); [|done]. apply list_elem_of_lookup. eauto. }
    rewrite Hf. split; [|split; [done|split; [done|split]]].
    + rewrite lookup_app_r by lia. by rewrite Nat.sub_diag.
    + intros i c Hi. rewrite lookup_app_l; [done|]. by apply lookup_lt_Some in Hi.
    + intros cls' Hne. unfold find.
      destruct (list_find (fun c => c = cls') children) as [[i x]|] eqn:El.
      * by rewrite (list_find_app_l _ _ _ _ _ El).
      * rewrite list_find_app_r by done. simpl.
        destruct (decide (cls = cls')); [congruence|done].
Qed.

(** ** Further facts *)

(** X18: whatever the rule for the events, the level of a line has
    [stop <= 0 <= start]: [stop] counts the regions the line closes as a
    negative number, [start] the regions it opens. *)
Theorem fold_level_signs {M} {F : FolderClass M} (txt : list string) (b : Z) :
  stop (fold_level txt b) <= 0 <= start (fold_level txt b).
Proof. split; [apply stop_nonpos|apply start_nonneg]. Qed.

(** X19: [unfold_all] is idempotent: after it every line of the document is
    visible, and a second [unfold_all] changes no flag and signals no
    repaint. *)
Theorem unfold_all_twice {M} {F : FolderClass M} (st : State M) :
  (forall i, isVisible (document (unfold_all st)) i = true)
  /\ document (unfold_all (unfold_all st)) = document (unfold_all st)
  /\ dirty (unfold_all (unfold_all st)) = dirty (unfold_all st).
Proof.
  assert (forall i, isVisible (document (unfold_all st)) i = true) as Hall.
  { intros i. destruct (unfold_all_shows st) as [Ht Hv].
    destruct (isValid (texts (document st)) i) eqn:E; [by apply Hv|].
    apply isVisible_invalid. by rewrite Ht. }
  split; [done|]. by apply unfold_all_visible_noop.
Qed.

Lemma isVisible_doc_of lines i : isVisible (doc_of lines) i = true.
Proof.
  unfold isVisible. destruct (isValid _ i); [|done].
  unfold doc_of. rewrite list_lookup_fmap.
  by destruct (lines !! Z.to_nat i).
Qed.

Lemma brace_contract_all (txt : list string) :
  Forall (fun s => Forall is_event (fold_events (FolderClass:=Folder) s)) txt.
Proof. apply Forall_forall. intros s _. apply brace_events_contract. Qed.

(** ** The further facts at concrete documents *)

Lemma region_around_block_witness :
  region (F:=Folder) example_lines 1 0 = Ok (Some (mkRegion 1 2))
  /\ (isValid example_lines 1 = true /\ isValid example_lines 2 = true
      /\ 1 <= 1 < 2
      /\ 0 < start (fold_level (F:=Folder) example_lines 1)).
Proof.
  split; [reflexivity|].
  apply (region_around_block (F:=Folder) example_lines 1 0 (mkRegion 1 2)).
  reflexivity.
Defined.

Lemma region_none_exactly_witness :
  isValid top_level_first 0 = true
  /\ (region (F:=Folder) top_level_first 0 0 = Ok None
      <-> has_enclosing_region (F:=Folder) top_level_first 0 = false).
Proof.
  split; [reflexivity|].
  apply (region_none_exactly (F:=Folder) top_level_first 0 0). reflexivity.
Defined.

Lemma region_widens_with_depth_witness :
  no_deeper 0 (-1)
  /\ region (F:=Folder) example_lines 1 0 = Ok (Some (mkRegion 1 2))
  /\ region (F:=Folder) example_lines 1 (-1) = Ok (Some (mkRegion 0 3))
  /\ (0 <= 1 /\ 2 <= 3).
Proof.
  split; [left; lia|]. split; [reflexivity|]. split; [reflexivity|].
  apply (region_widens_with_depth (F:=Folder) example_lines 1 0 (-1)
           (mkRegion 1 2) (mkRegion 0 3));
    [left; lia|reflexivity|reflexivity].
Defined.

Lemma perform_all_keeps_text_witness :
  exists st',
    perform_all (F:=Folder) (fresh tt three_deep)
      [ActFold 3 0; ActFoldAll; ActEnsureVisible 3; ActUnfoldAll] = Ok st'
    /\ texts (document st') = texts (document (fresh tt three_deep)).
Proof.
  eexists. split; [vm_compute; reflexivity|].
  apply (perform_all_keeps_text (F:=Folder) (fresh tt three_deep) _
           [ActFold 3 0; ActFoldAll; ActEnsureVisible 3; ActUnfoldAll]).
  vm_compute. reflexivity.
Defined.

Lemma perform_one_way_witness :
  perform (F:=Folder) (fresh tt one_region) (ActFold 1 0) = Ok one_region_folded
  /\ (isVisible (document one_region_folded) 0 = true ->
      isVisible (document (fresh tt one_region)) 0 = true).
Proof.
  split; [reflexivity|].
  apply (perform_one_way (F:=Folder) (fresh tt one_region) one_region_folded
           (ActFold 1 0) eq_refl 0).
Defined.

Lemma perform_all_hidden_after_opener_witness :
  hidden_after_opener (F:=Folder) (document (fresh tt three_deep))
  /\ exists st',
       perform_all (F:=Folder) (fresh tt three_deep)
         [ActFold 3 0; ActFold 1 0; ActUnfold 3 0 false; ActFoldAll] = Ok st'
       /\ hidden_after_opener (F:=Folder) (document st').
Proof.
  assert (hidden_after_opener (F:=Folder) (document (fresh tt three_deep))) as H0.
  { intros i Hi. change (document (fresh tt three_deep)) with (doc_of three_deep) in Hi.
    by rewrite isVisible_doc_of in Hi. }
  split; [exact H0|].
  eexists. split; [vm_compute; reflexivity|].
  apply (perform_all_hidden_after_opener (F:=Folder) (fresh tt three_deep) _
           [ActFold 3 0; ActFold 1 0; ActUnfold 3 0 false; ActFoldAll] H0).
  vm_compute. reflexivity.
Defined.

Lemma fold_twice_witness :
  fold (F:=Folder) (fresh tt one_region) 1 0 = Ok one_region_folded
  /\ exists st2, fold (F:=Folder) one_region_folded 1 0 = Ok st2
                 /\ flags (document st2) = flags (document one_region_folded).
Proof.
  split; [reflexivity|].
  apply (fold_twice (F:=Folder) (fresh tt one_region) one_region_folded 1 0).
  reflexivity.
Defined.

Lemma fold_all_returns_witness :
  (forall b, is_last_block (texts (document (fresh tt one_region))) b = true ->
     start (fold_level (F:=Folder) (texts (document (fresh tt one_region))) b) = 0)
  /\ exists st', fold_all (F:=Folder) (fresh tt one_region) = Ok st'.
Proof.
  assert (forall b, is_last_block (texts (document (fresh tt one_region))) b = true ->
            start (fold_level (F:=Folder)
                     (texts (document (fresh tt one_region))) b) = 0) as H0.
  { intros b Hb. unfold is_last_block in Hb.
    apply andb_true_iff in Hb as [Hv Hn]. apply negb_true_iff in Hn.
    apply isValid_spec in Hv.
    assert (b = 2) as ->; [|reflexivity].
    destruct (decide (b = 2)); [done|].
    assert (isValid (texts (document (fresh tt one_region))) (b + 1) = true);
      [|congruence].
    apply isValid_spec. unfold blockCount in *. simpl in *. lia. }
  split; [exact H0|].
  apply (fold_all_returns (F:=Folder) (fresh tt one_region) H0).
Defined.

Lemma unfold_all_clears_marks_witness :
  mark_clears MarkingFolder
  /\ isValid (texts (document three_deep_reopened)) 1 = true
  /\ start (fold_level (F:=MarkingFolder) (texts (document three_deep_reopened)) 1) <> 0
  /\ collapsed (F:=MarkingFolder) (marks three_deep_reopened) 1 = true
  /\ collapsed (F:=MarkingFolder)
       (marks (unfold_all (F:=MarkingFolder) three_deep_reopened)) 1 = false.
Proof.
  split; [exact marking_folder_clears|]. split; [reflexivity|].
  split; [discriminate|]. split; [reflexivity|].
  apply (unfold_all_clears_marks (F:=MarkingFolder) three_deep_reopened 1
           marking_folder_clears eq_refl).
  discriminate.
Defined.

Lemma unfold_all_nothing_hidden_witness :
  (forall i, isVisible (document (fresh tt one_region)) i = true)
  /\ document (unfold_all (F:=Folder) (fresh tt one_region))
     = document (fresh tt one_region)
  /\ dirty (unfold_all (F:=Folder) (fresh tt one_region)) = [].
Proof.
  split; [intros i; apply isVisible_doc_of|].
  apply (unfold_all_nothing_hidden (F:=Folder) (fresh tt one_region)).
  intros i. apply isVisible_doc_of.
Defined.

Lemma unfold_all_repaints_hidden_span_witness :
  isVisible (document one_region_folded) 1 = false
  /\ isVisible (document one_region_folded) 2 = false
  /\ (forall i, isVisible (document one_region_folded) i = false -> 1 <= i <= 2)
  /\ dirty (unfold_all (F:=Folder) one_region_folded) = [(1, 2); (0, 2)].
Proof.
  assert (forall i, isVisible (document one_region_folded) i = false -> 1 <= i <= 2)
    as H0.
  { intros i Hi. pose proof (isVisible_false_valid _ _ Hi) as Hv. simpl in Hv.
    destruct (decide (i = 0)) as [->|]; [discriminate Hi|lia]. }
  split; [reflexivity|]. split; [reflexivity|]. split; [exact H0|].
  apply (unfold_all_repaints_hidden_span (F:=Folder) one_region_folded 1 2
           eq_refl eq_refl H0).
Defined.

Lemma paintEvent_depths_witness :
  Forall (fun s => Forall is_event (fold_events (FolderClass:=Folder) s))
         (texts (document one_region_folded))
  /\ isValid (texts (document one_region_folded)) 0 = true
  /\ Forall (fun c => draw_depth c
                      = depth (F:=Folder) (texts (document one_region_folded))
                          (draw_block c)
                      /\ draw_depths_ok (F:=Folder) (document one_region_folded) c)
       (paintEvent (F:=Folder) (fun _ => false) (document one_region_folded) 0).
Proof.
  split; [apply brace_contract_all|]. split; [reflexivity|].
  apply (paintEvent_depths (F:=Folder) (fun _ => false)
           (document one_region_folded) 0 (brace_contract_all _) eq_refl).
Defined.

Lemma open_indicator_has_line_witness :
  mkDraw 0 (Some OPEN) 0 0
    ∈ paintEvent (F:=Folder) (fun _ => false) (document one_region_folded) 0
  /\ 0 ∈ lines_drawn (fun _ => false) (document one_region_folded) 0.
Proof.
  assert (mkDraw 0 (Some OPEN) 0 0
            ∈ paintEvent (F:=Folder) (fun _ => false)
                (document one_region_folded) 0) as H0.
  { vm_compute. apply list_elem_of_here. }
  split; [exact H0|].
  apply (open_indicator_has_line (F:=Folder) (fun _ => false)
           (document one_region_folded) 0 (mkDraw 0 (Some OPEN) 0 0) H0 eq_refl).
Defined.

Lemma ensure_visible_shows_witness :
  mark_getter_pure Folder
  /\ isVisible (document one_region_folded) 1 = false
  /\ isValid (texts (document one_region_folded)) (1 + 1) = true
  /\ has_enclosing_region (F:=Folder) (texts (document one_region_folded)) 1 = true
  /\ 1 <= depth (F:=Folder) (texts (document one_region_folded)) 1
  /\ exists st',
       ensure_visible (F:=Folder) one_region_folded 1 = Ok st'
       /\ isVisible (document st') 1 = true.
Proof.
  split; [exact folder_getter_pure|]. split; [reflexivity|].
  split; [reflexivity|]. split; [reflexivity|]. split; [vm_compute; discriminate|].
  destruct (ensure_visible_shows (F:=Folder) one_region_folded 1
              folder_getter_pure ltac:(intros; reflexivity)
              eq_refl eq_refl eq_refl ltac:(vm_compute; discriminate))
    as (st' & He & Hv & _).
  exists st'. split; [exact He|exact Hv].
Defined.
